(** * lada.lib.degradation_utils: synthetic degradation of training frames

    A shallow embedding of [lada/lib/degradation_utils.py] and the properties
    of its parameter samplers and degradation pipelines.

    - 8-bit images are height x width x channel arrays of integers in
      [0,256); float images carry IEEE-754 values, modelled bit-exactly by
      the Standard Library's [SpecFloat] (binary32 for [np.float32],
      binary64 for Python floats and [np.float64]).
    - The two random generators, the OpenCV/NumPy/PyAV primitives and the
      helpers of other modules of the package are an interface
      ([Externals]); the module-global random state of the process is an
      explicit [World] threaded through every call that can touch it.
    - Python exceptions are values of [exn]; a call is a function from the
      world to either an exception or a result and the next world. *)

From Stdlib Require Import ZArith Lia DecimalString.
From Stdlib Require Import Floats.SpecFloat.
From stdpp Require Import base option list strings gmap.

Local Open Scope string_scope.
Local Open Scope list_scope.
Local Open Scope Z_scope.

(** ** Floating point *)

Module F32.
Definition prec : Z := 24.
Definition emax : Z := 128.
Definition of_Z (z : Z) : spec_float := binary_normalize prec emax z 0 false.
Definition mul : spec_float → spec_float → spec_float := SFmul prec emax.
Definition div : spec_float → spec_float → spec_float := SFdiv prec emax.
Definition add : spec_float → spec_float → spec_float := SFadd prec emax.
Definition zero : spec_float := of_Z 0.
Definition one : spec_float := of_Z 1.
End F32.

Module F64.
Definition prec : Z := 53.
Definition emax : Z := 1024.
Definition of_Z (z : Z) : spec_float := binary_normalize prec emax z 0 false.
Definition mul : spec_float → spec_float → spec_float := SFmul prec emax.
Definition div : spec_float → spec_float → spec_float := SFdiv prec emax.
Definition add : spec_float → spec_float → spec_float := SFadd prec emax.
(** A decimal literal [n/d] of the source, e.g. [0.3] is [lit 3 10]: the
    parser and the division both round the same real number to nearest. *)
Definition lit (n d : Z) : spec_float := div (of_Z n) (of_Z d).
Definition zero : spec_float := of_Z 0.
Definition one : spec_float := of_Z 1.
End F64.

(** [x < y] on two floats of one format (false when either is NaN). *)
Definition flt (x y : spec_float) : bool := SFltb x y.

(** Integer part of a float, rounding toward zero (0 for NaN and the
    infinities, which the pipelines never produce). *)
Definition trunc (f : spec_float) : Z :=
  match f with
  | S754_finite s m e =>
      let v := if 0 <=? e then Z.shiftl (Z.pos m) e else Z.shiftr (Z.pos m) (- e) in
      if s then - v else v
  | _ => 0
  end.

(** [np.clip(x, lo, hi)]. *)
Definition clip (lo hi x : spec_float) : spec_float :=
  if flt x lo then lo else if flt hi x then hi else x.

(** ** Arrays *)

(** An array of shape (height, width, channels), row major. *)
Definition ndarray (A : Type) : Type := list (list (list A)).

(** 8-bit image: every entry is in [0,256). *)
Definition Image : Type := ndarray Z.
Definition FloatImage : Type := ndarray spec_float.

Definition amap {A B} (f : A → B) (a : ndarray A) : ndarray B :=
  map (map (map f)) a.

(** Elementwise combination of two arrays of the same shape. *)
Definition azip {A B C} (f : A → B → C) (a : ndarray A) (b : ndarray B) : ndarray C :=
  zip_with (zip_with (zip_with f)) a b.

(** [img.shape[:2]]. *)
Definition shape2 {A} (a : ndarray A) : nat * nat :=
  (length a, length (default [] (head a))).

(** [img.shape]. *)
Definition shape3 {A} (a : ndarray A) : nat * nat * nat :=
  (length a, length (default [] (head a)),
   length (default [] (head (default [] (head a))))).

(** [img[0:h, 0:w, :]]. *)
Definition crop {A} (h w : nat) (a : ndarray A) : ndarray A :=
  map (take w) (take h a).

(** Every row of an [h] x [w] frame has [w] pixels. *)
Definition has_size {A} (h w : nat) (a : ndarray A) : Prop :=
  length a = h ∧ Forall (λ row, length row = w) a.

Definition is_uint8 (v : Z) : Prop := 0 ≤ v < 256.
Definition is_uint8_image (img : Image) : Prop :=
  Forall (Forall (Forall is_uint8)) img.

(** [.astype(np.uint8)] of a float: truncation toward zero.  The pipelines
    only cast values of [0,256), where the cast is exact.  Outside that
    range the result of the cast depends on the platform; the wrap modulo
    256 written here is what NumPy does on x86-64 for values below 2^31
    only, and nothing is stated about such values. *)
Definition astype_uint8 (f : spec_float) : Z := trunc f mod 256.

(** [img.astype(np.float32) / 255.] and [(img_lq * 255.).astype(np.uint8)]. *)
Definition to_unit_f32 (v : Z) : spec_float := F32.div (F32.of_Z v) (F32.of_Z 255).
Definition of_unit_f32 (x : spec_float) : Z := astype_uint8 (F32.mul x (F32.of_Z 255)).

(** Whether the conversion to float32 and back returns the value. *)
Definition roundtrip_f32 (v : Z) : bool := of_unit_f32 (to_unit_f32 v) =? v.

(** [img / 255.0] and [(img * 255).astype(np.uint8)] in double precision. *)
Definition to_unit_f64 (v : Z) : spec_float := F64.div (F64.of_Z v) (F64.of_Z 255).
Definition of_unit_f64 (x : spec_float) : Z := astype_uint8 (F64.mul x (F64.of_Z 255)).

(** ** Exceptions and calls *)

Inductive exn : Type :=
  | AssertionError (msg : string)
  | IndexError
  | KeyError (key : string)
  | AvError (msg : string)
  | Cv2Error (msg : string).

Definition result (A : Type) : Type := exn + A.

(** A call that may read and update the world [W] or raise. *)
Definition call (W A : Type) : Type := W → exn + (A * W).

Definition ret {W A} (a : A) : call W A := λ w, inr (a, w).
Definition raise {W A} (e : exn) : call W A := λ _, inl e.
Definition bind {W A B} (m : call W A) (k : A → call W B) : call W B :=
  λ w, match m w with
       | inl e => inl e
       | inr (a, w') => k a w'
       end.
Definition lift {W A} (r : result A) : call W A :=
  λ w, match r with inl e => inl e | inr a => inr (a, w) end.

(** What a call returned or raised, without the world it left. *)
Definition outcome {W A} (r : exn + A * W) : result A :=
  match r with
  | inl e => inl e
  | inr (a, _) => inr a
  end.

#[export] Instance call_ret {W} : MRet (call W) := λ A, ret.
#[export] Instance call_bind {W} : MBind (call W) := λ A B k m, bind m k.

(** [[f(x) for x in xs]], left to right. *)
Fixpoint for_each {W A B} (f : A → call W B) (xs : list A) : call W (list B) :=
  match xs with
  | [] => ret []
  | x :: xs' => y ← f x; ys ← for_each f xs'; ret (y :: ys)
  end.

(** [xs[0]]. *)
Definition first {W A} (xs : list A) : call W A :=
  match xs with
  | [] => raise IndexError
  | x :: _ => ret x
  end.

(** [d[k]] on a dict kept in insertion order. *)
Fixpoint dict_get {V} (d : list (string * V)) (k : string) : result V :=
  match d with
  | [] => inl (KeyError k)
  | (k', v) :: d' => if String.eqb k' k then inr v else dict_get d' k
  end.

Definition keys {V} (d : list (string * V)) : list string := map fst d.

(** [str(n)] of a Python int. *)
Definition str (n : Z) : string := NilZero.string_of_int (Z.to_int n).

(** ** The collaborators of the module *)

(** The arguments of [random_mixed_kernels]. *)
Record kernel_args : Type := {
  kernel_list : list string;
  kernel_prob : list spec_float;
  kernel_size : Z;
  sigma_x_range : spec_float * spec_float;
  sigma_y_range : spec_float * spec_float;
  noise_range : option (spec_float * spec_float);
  kernel_repeatable_random : bool;
}.

(** What [_apply_video_compression] sets on the output stream. *)
Record stream_config : Type := {
  stream_codec : string;
  stream_rate : Z;
  stream_options : gmap string string;
  stream_height : nat;
  stream_width : nat;
  stream_pix_fmt : string;
  stream_bit_rate : option Z;
}.

(** The random generators, OpenCV, NumPy, PyAV and the helpers imported
    from [lada.lib]; none of their code is part of this module.

    [get_rngs] is [random_utils.get_rngs]: it returns the generator for
    booleans and discrete choices and the one for numeric draws, and in
    repeatable mode seeds both deterministically.  [randint low high]
    draws from the half-open range, as [numpy.random.randint] does.

    The two generators are values of their own: a draw gives the next
    state of the generator it is made on and leaves the [World] as it is.
    Where [get_rngs] hands out the module-global generators, the draws of
    the constructors are therefore not reflected in the [World]: the
    [World] a constructor returns is the state of the process apart from
    the two generators. *)
Class Externals : Type := {
  World : Type;
  PyRandom : Type;
  NpRandom : Type;
  Kernel : Type;

  get_rngs : bool → World → PyRandom * NpRandom;
  (** [rng_random.random()] *)
  random : PyRandom → spec_float * PyRandom;
  (** the position [rng_random.choice] picks in a sequence of [n] items *)
  choice_index : nat → PyRandom → nat * PyRandom;
  (** the position [rng_numpy.choice(..., p=p)] picks among [n] items *)
  np_choice_index : nat → list spec_float → NpRandom → nat * NpRandom;
  randint : Z → Z → NpRandom → Z * NpRandom;
  uniform : spec_float → spec_float → NpRandom → spec_float * NpRandom;
  (** [np.random.normal(mean, std, shape)] on the global NumPy state *)
  np_random_normal :
    spec_float → spec_float → nat * nat * nat → World → FloatImage * World;
  (** [x ** y] on floats *)
  py_pow : spec_float → spec_float → spec_float;
  (** [int(n // scale)] for an int [n] and a float [scale] *)
  floordiv_int : nat → spec_float → Z;

  random_mixed_kernels : kernel_args → World → Kernel * World;
  (** [generate_gaussian_noise(img, sigma, gray_noise, repeatable_random)] *)
  generate_gaussian_noise :
    FloatImage → spec_float → bool → bool → World → FloatImage * World;
  add_jpg_compression : FloatImage → spec_float → FloatImage;

  (** [cv2.filter2D(img, ddepth, kernel)] *)
  cv2_filter2D : FloatImage → Z → Kernel → FloatImage;
  (** [cv2.resize(img, (w, h), interpolation=cv2.INTER_LINEAR)] *)
  cv2_resize : FloatImage → Z * Z → result FloatImage;
  (** [cv2.GaussianBlur(img, ksize, sigma)] *)
  cv2_GaussianBlur : Image → Z * Z → Z → Image;

  (** the multiple that [video_utils] pads frame sizes to *)
  codec_alignment : nat;
  (** [container.add_stream(codec, rate=rate, options=options)] *)
  av_add_stream : string → Z → gmap string string → result unit;
  (** encoding the frames as rgb24 into the in-memory mp4 container,
      flushing, and decoding the container back into rgb frames *)
  av_encode_decode : stream_config → list Image → result (list Image);
}.

(** What the module relies on from its generators and helpers: a choice
    picks a position inside the sequence, [randint] stays in its half-open
    range, repeatable mode does not depend on the state of the process, and
    frame sizes are padded to a positive multiple. *)
Class Lawful `{Externals} : Prop := {
  choice_index_lt : ∀ n r, (0 < n)%nat → (fst (choice_index n r) < n)%nat;
  np_choice_index_lt :
    ∀ n p g, (0 < n)%nat → (fst (np_choice_index n p g) < n)%nat;
  randint_range : ∀ low high g, low < high → low ≤ fst (randint low high g) < high;
  get_rngs_repeatable : ∀ w w', get_rngs true w = get_rngs true w';
  codec_alignment_pos : (0 < codec_alignment)%nat;
}.

(** [requested and rng_random.random() < p]: the right operand, and with it
    the draw, is evaluated only when [requested] holds. *)
Definition and_draw `{Externals} (requested : bool) (p : spec_float)
    (rng_random : PyRandom) : bool * PyRandom :=
  if requested then
    let '(u, rng_random) := random rng_random in (flt u p, rng_random)
  else (false, rng_random).

(** [seq[i]] for the position a generator picked. *)
Definition pick {A} (seq : list A) (i : nat) : result A :=
  match seq !! i with
  | Some x => inr x
  | None => inl IndexError
  end.

(** ** The v2 parameter sampler *)

Module MosaicRandomDegradationParamsV2.
Section Sampler.
Context `{Externals}.

Record t : Type := {
  _rng_numpy : NpRandom;
  video_codec : string;
  video_crf : option Z;
  video_bitrate : option Z;
  should_add_video_compression : bool;
  blur_sigma : Z;
  should_add_blur : bool;
  should_add_noise : bool;
  should_run_video_compression_second_pass : bool;
}.

Definition codecs : list (string * (Z * Z)) :=
  [("libx264", (16, 28)); ("libx265", (20, 36));
   ("libvpx-vp9", (6000, 16000)); ("mpeg2video", (18000, 40000))].

Definition available_codecs : list string :=
  ["libx264"; "libx265"; "libvpx-vp9"; "mpeg2video"].

Definition codec_probabilities : list spec_float :=
  [F64.lit 3 10; F64.lit 3 10; F64.lit 3 10; F64.lit 1 10].

(** [codec in ('libvpx-vp9', 'mpeg2video')] *)
Definition uses_bitrate (codec : string) : bool :=
  String.eqb codec "libvpx-vp9" || String.eqb codec "mpeg2video".

Definition __init__ (repeatable_random : bool) : call World t := λ w,
  let '(rng_random, rng_numpy) := get_rngs repeatable_random w in
  let '(i, rng_numpy) :=
    np_choice_index (length available_codecs) codec_probabilities rng_numpy in
  match pick available_codecs i with
  | inl e => inl e
  | inr codec =>
    match dict_get codecs codec with
    | inl e => inl e
    | inr (low, high) =>
      let '(value, rng_numpy) := randint low (high + 1) rng_numpy in
      let '(crf, bitrate) :=
        if uses_bitrate codec then (None, Some value) else (Some value, None) in
      let '(u, rng_random) := random rng_random in
      let compression := flt u (F64.lit 9 10) in
      let '(sigma, rng_numpy) := randint 1 4 rng_numpy in
      let '(u, rng_random) := random rng_random in
      let blur := flt u (F64.lit 3 10) in
      let '(u, rng_random) := random rng_random in
      let noise := flt u (F64.lit 2 10) in
      let '(u, rng_random) := random rng_random in
      let second_pass := flt u (F64.lit 15 100) in
      inr ({| _rng_numpy := rng_numpy;
              video_codec := codec;
              video_crf := crf;
              video_bitrate := bitrate;
              should_add_video_compression := compression;
              blur_sigma := sigma;
              should_add_blur := blur;
              should_add_noise := noise;
              should_run_video_compression_second_pass := second_pass |}, w)
    end
  end.

(** The method updates the object in place; the updated object is the
    result. *)
Definition reinit_second_pass (self : t) : t :=
  let '(crf, rng_numpy) := randint 24 28 (_rng_numpy self) in
  {| _rng_numpy := rng_numpy;
     video_codec := "libx264";
     video_crf := Some crf;
     video_bitrate := None;
     should_add_video_compression := should_add_video_compression self;
     blur_sigma := blur_sigma self;
     should_add_blur := false;
     should_add_noise := false;
     should_run_video_compression_second_pass := false |}.

(** The same object with another state of its generator. *)
Definition with_rng (rng_numpy : NpRandom) (self : t) : t :=
  {| _rng_numpy := rng_numpy;
     video_codec := video_codec self;
     video_crf := video_crf self;
     video_bitrate := video_bitrate self;
     should_add_video_compression := should_add_video_compression self;
     blur_sigma := blur_sigma self;
     should_add_blur := should_add_blur self;
     should_add_noise := should_add_noise self;
     should_run_video_compression_second_pass :=
       should_run_video_compression_second_pass self |}.

(** The same object with another [video_crf]. *)
Definition with_crf (crf : option Z) (self : t) : t :=
  {| _rng_numpy := _rng_numpy self;
     video_codec := video_codec self;
     video_crf := crf;
     video_bitrate := video_bitrate self;
     should_add_video_compression := should_add_video_compression self;
     blur_sigma := blur_sigma self;
     should_add_blur := should_add_blur self;
     should_add_noise := should_add_noise self;
     should_run_video_compression_second_pass :=
       should_run_video_compression_second_pass self |}.

(** The fields of the object other than [video_crf] and the generator. *)
Definition fixed_fields (self : t)
    : string * option Z * bool * Z * bool * bool * bool :=
  (video_codec self, video_bitrate self, should_add_video_compression self,
   blur_sigma self, should_add_blur self, should_add_noise self,
   should_run_video_compression_second_pass self).

(** Exactly one of [video_crf] and [video_bitrate] is set, the one the
    codec calls for. *)
Definition codec_rule (self : t) : Prop :=
  (video_codec self ∈ ["libx264"; "libx265"] ∧
     is_Some (video_crf self) ∧ video_bitrate self = None) ∨
  (video_codec self ∈ ["libvpx-vp9"; "mpeg2video"] ∧
     video_crf self = None ∧ is_Some (video_bitrate self)).

(** The value drawn for the codec: a CRF for libx264 and libx265, a bit
    rate for libvpx-vp9 and mpeg2video, within the bounds of the codec. *)
Definition in_codec_range (p : t) : Prop :=
  (video_codec p = "libx264" ∧ video_bitrate p = None ∧
     ∃ crf, video_crf p = Some crf ∧ 16 ≤ crf ≤ 28) ∨
  (video_codec p = "libx265" ∧ video_bitrate p = None ∧
     ∃ crf, video_crf p = Some crf ∧ 20 ≤ crf ≤ 36) ∨
  (video_codec p = "libvpx-vp9" ∧ video_crf p = None ∧
     ∃ bitrate, video_bitrate p = Some bitrate ∧ 6000 ≤ bitrate ≤ 16000) ∨
  (video_codec p = "mpeg2video" ∧ video_crf p = None ∧
     ∃ bitrate, video_bitrate p = Some bitrate ∧ 18000 ≤ bitrate ≤ 40000).
End Sampler.
End MosaicRandomDegradationParamsV2.

(** ** The v1 parameter sampler *)

Module MosaicRandomDegradationParams.
Section Sampler.
Context `{Externals}.

Record t : Type := {
  should_down_sample : bool;
  scale : spec_float;
  should_add_noise : bool;
  sigma : spec_float;
  repeatable_noise : bool;
  should_add_jpeg_compression : bool;
  jpeg_quality : spec_float;
  video_codec : string;
  video_bitrate : Z;
  should_add_video_compression : bool;
  should_add_blur : bool;
  blur_kernel : Kernel;
}.

Definition codecs : list (string * (Z * Z)) :=
  [("libx264", (15000, 100000)); ("libx265", (10000, 60000));
   ("libvpx-vp9", (10000, 60000)); ("mpeg4", (15000, 100000))].

Definition down_sample_range : spec_float * spec_float := (F64.lit 5 10, F64.lit 2 1).
Definition sigma_range : spec_float * spec_float := (F64.of_Z 0, F64.of_Z 2).
Definition jpeg_range : spec_float * spec_float := (F64.of_Z 70, F64.of_Z 90).

Definition blur_kernel_args (repeatable_random : bool) : kernel_args :=
  {| kernel_list := ["iso"; "aniso"];
     kernel_prob := [F64.lit 5 10; F64.lit 5 10];
     kernel_size := 41;
     sigma_x_range := (F64.of_Z 0, F64.of_Z 2);
     sigma_y_range := (F64.of_Z 0, F64.of_Z 2);
     noise_range := None;
     kernel_repeatable_random := repeatable_random |}.

(** The keyword arguments of the constructor, with their defaults in
    [default_toggles]. *)
Record toggles : Type := {
  want_down_sample : bool;
  want_noise : bool;
  want_image_compression : bool;
  want_video_compression : bool;
  want_blur : bool;
}.

Definition default_toggles : toggles :=
  {| want_down_sample := true; want_noise := true;
     want_image_compression := true; want_video_compression := false;
     want_blur := false |}.

Definition __init__ (args : toggles) (repeatable_random : bool)
    : call World t := λ w,
  let '(rng_random, rng_numpy) := get_rngs repeatable_random w in
  (* down sample *)
  let '(down_sample, rng_random) :=
    and_draw (want_down_sample args) (F64.lit 5 10) rng_random in
  let '(scale_, rng_numpy) :=
    uniform (fst down_sample_range) (snd down_sample_range) rng_numpy in
  (* noise *)
  let '(noise, rng_random) :=
    and_draw (want_noise args) (F64.lit 3 10) rng_random in
  let '(sigma_, rng_numpy) :=
    uniform (fst sigma_range) (snd sigma_range) rng_numpy in
  (* jpeg compression *)
  let '(jpeg, rng_random) :=
    and_draw (want_image_compression args) (F64.lit 5 10) rng_random in
  let '(quality, rng_numpy) :=
    uniform (fst jpeg_range) (snd jpeg_range) rng_numpy in
  (* video compression *)
  let '(i, rng_random) := choice_index (length (keys codecs)) rng_random in
  match pick (keys codecs) i with
  | inl e => inl e
  | inr codec =>
    match dict_get codecs codec with
    | inl e => inl e
    | inr (low, high) =>
      let '(bitrate, rng_numpy) := randint low (high + 1) rng_numpy in
      let '(video, rng_random) :=
        and_draw (want_video_compression args) (F64.lit 5 10) rng_random in
      (* blur *)
      let '(blur, rng_random) :=
        and_draw (want_blur args) (F64.lit 5 10) rng_random in
      let '(kernel, w) :=
        random_mixed_kernels (blur_kernel_args repeatable_random) w in
      inr ({| should_down_sample := down_sample;
              scale := scale_;
              should_add_noise := noise;
              sigma := sigma_;
              repeatable_noise := repeatable_random;
              should_add_jpeg_compression := jpeg;
              jpeg_quality := quality;
              video_codec := codec;
              video_bitrate := bitrate;
              should_add_video_compression := video;
              should_add_blur := blur;
              blur_kernel := kernel |}, w)
    end
  end.

(** The state of [rng_random] after [requested and rng_random.random() < p]. *)
Definition after_flag (requested : bool) (rng_random : PyRandom) : PyRandom :=
  if requested then snd (random rng_random) else rng_random.

(** The Bernoulli draw [rng_random.random() < p] at a generator state. *)
Definition bernoulli (p : spec_float) (rng_random : PyRandom) : bool :=
  flt (fst (random rng_random)) p.
End Sampler.
End MosaicRandomDegradationParams.

(** ** Video compression *)

Module V1 := MosaicRandomDegradationParams.
Module V2 := MosaicRandomDegradationParamsV2.

Section Pipeline.
Context `{Externals}.

(** The next multiple of [align] at or above [n]. *)
Definition pad_up (align n : nat) : nat :=
  if Nat.eqb (n `mod` align) 0 then n else (n + (align - n `mod` align))%nat.

(** [np.pad] of one frame with zeros below and to the right. *)
Definition pad_frame (h w : nat) (img : Image) : Image :=
  let channels := length (default [] (head (default [] (head img)))) in
  let black := replicate channels 0 in
  map (λ row, row ++ replicate (w - length row) black) img
    ++ replicate (h - length img) (replicate w black).

(** Modelled from the spec: [video_utils.pad_to_compatible_size_for_video_codecs]
    is not part of this module.  It pads the height and width of every
    frame up to the nearest size that is compatible with the video codecs,
    a multiple of [codec_alignment]; frames of a compatible size are left
    as they are. *)
Definition pad_to_compatible_size_for_video_codecs (imgs : list Image)
    : list Image :=
  match imgs with
  | [] => []
  | img0 :: _ =>
      let '(h, w) := shape2 img0 in
      map (pad_frame (pad_up codec_alignment h) (pad_up codec_alignment w)) imgs
  end.

(** A frame size that needs no padding. *)
Definition codec_compatible (h w : nat) : Prop :=
  (h `mod` codec_alignment = 0)%nat ∧ (w `mod` codec_alignment = 0)%nat.

(** Truth value of an optional int: [None] and [0] are false. *)
Definition truthy (v : option Z) : bool :=
  match v with
  | Some n => negb (n =? 0)
  | None => false
  end.

(** The [options] dict of the output stream. *)
Definition stream_options_for (codec : string) (crf : option Z)
    : gmap string string :=
  let options : gmap string string := ∅ in
  let options :=
    match crf with
    | Some c => if truthy crf then <["crf" := str c]> options else options
    | None => options
    end in
  let options :=
    if String.eqb codec "libx265"
    then <["x265-params" := "log_level=error"]> options else options in
  let options :=
    if String.eqb codec "libx264" || String.eqb codec "libx265"
    then <["preset" := "veryfast"]> options else options in
  options.

(** The output stream as the encoder is given it: codec, options, frame
    size, pixel format and bit rate. *)
Definition stream_setup (imgs : list Image) (codec : string)
    (bitrate crf : option Z) : result stream_config :=
  let options := stream_options_for codec crf in
  match av_add_stream codec 1 options with
  | inl e => inl e
  | inr _ =>
    match imgs with
    | [] => inl IndexError
    | img0 :: _ =>
        inr {| stream_codec := codec;
               stream_rate := 1;
               stream_options := options;
               stream_height := fst (shape2 img0);
               stream_width := snd (shape2 img0);
               stream_pix_fmt := "yuv420p";
               stream_bit_rate := if truthy bitrate then bitrate else None |}
    end
  end.

Definition _apply_video_compression (imgs : list Image) (codec : string)
    (bitrate crf : option Z) : result (list Image) :=
  match stream_setup imgs codec bitrate crf with
  | inl e => inl e
  | inr stream => av_encode_decode stream imgs
  end.

Definition apply_video_compression (imgs : list Image) (codec : string)
    (bitrate crf : option Z) : result (list Image) :=
  let imgs := pad_to_compatible_size_for_video_codecs imgs in
  match imgs with
  | [] => inl IndexError
  | img0 :: _ =>
      let '(h, w) := shape2 img0 in
      match _apply_video_compression imgs codec bitrate crf with
      | inl e => inl e
      | inr degraded_imgs => inr (map (crop h w) degraded_imgs)
      end
  end.

(** ** Frame degradation *)

(** [noise(img, snr)]: the samples come from the global NumPy state.
    [py_pow] stands for [10 ** (-snr / 20)] where that power is finite, as
    it is for every [snr >= 0] and for the 50 the module passes; the
    [OverflowError] that Python raises for an [snr] far below zero is not
    modelled. *)
Definition noise (img : Image) (snr : Z) : call World Image := λ w,
  let mean := F64.zero in
  let img := amap to_unit_f64 img in
  let std := py_pow (F64.of_Z 10) (F64.div (F64.of_Z (- snr)) (F64.of_Z 20)) in
  let '(noise, w) := np_random_normal mean std (shape3 img) w in
  let img := amap (clip F64.zero F64.one) (azip F64.add img noise) in
  inr (amap of_unit_f64 img, w).

(** The float image is [np.float32]; the noise array and the results of
    the OpenCV calls are taken to be [np.float32] as well. *)
Definition apply_frame_degradation (img : Image) (degradation_params : V1.t)
    : call World Image :=
  let '(h, w) := shape2 img in
  let img_lq := amap to_unit_f32 img in
  (* blur *)
  let img_lq :=
    if V1.should_add_blur degradation_params
    then cv2_filter2D img_lq (-1) (V1.blur_kernel degradation_params)
    else img_lq in
  (* downsample *)
  img_lq ←
    (if V1.should_down_sample degradation_params
     then lift (cv2_resize img_lq
                  (floordiv_int w (V1.scale degradation_params),
                   floordiv_int h (V1.scale degradation_params)))
     else ret img_lq);
  (* noise *)
  img_lq ←
    (if V1.should_add_noise degradation_params
     then λ world,
       let '(noise, world) :=
         generate_gaussian_noise img_lq (V1.sigma degradation_params) false
           (V1.repeatable_noise degradation_params) world in
       inr (amap (clip F32.zero F32.one) (azip F32.add img_lq noise), world)
     else ret img_lq);
  (* jpeg compression *)
  let img_lq :=
    if V1.should_add_jpeg_compression degradation_params
    then add_jpg_compression img_lq (V1.jpeg_quality degradation_params)
    else img_lq in
  (* scale back up *)
  img_lq ←
    (if V1.should_down_sample degradation_params
     then lift (cv2_resize img_lq (Z.of_nat w, Z.of_nat h))
     else ret img_lq);
  ret (amap of_unit_f32 img_lq).

Definition apply_frame_degradation_v2 (img : Image) (degradation_params : V2.t)
    : call World Image :=
  let img_lq := img in
  let img_lq :=
    if V2.should_add_blur degradation_params
    then cv2_GaussianBlur img (13, 13) (V2.blur_sigma degradation_params)
    else img_lq in
  if V2.should_add_noise degradation_params then noise img_lq 50 else ret img_lq.

(** ** The video pipelines *)

Definition apply_video_degradation (imgs : list Image)
    (degradation_params : V1.t) : call World (list Image) :=
  imgs_lq ← for_each (λ img, apply_frame_degradation img degradation_params) imgs;
  (* video_compression *)
  if V1.should_add_video_compression degradation_params
  then lift (apply_video_compression imgs_lq
               (V1.video_codec degradation_params)
               (Some (V1.video_bitrate degradation_params)) None)
  else ret imgs_lq.

Definition apply_video_degradation_v2 (imgs : list Image)
    (degradation_params : V2.t) : call World (list Image) :=
  img0 ← first imgs;
  if Nat.eqb (Nat.max (fst (shape2 img0)) (snd (shape2 img0))) 256
  then
    imgs_lq ← lift (apply_video_compression imgs
                      (V2.video_codec degradation_params)
                      (V2.video_bitrate degradation_params) None);
    for_each (λ img, apply_frame_degradation_v2 img degradation_params) imgs_lq
  else
    raise (AssertionError
             "video compression degradation expects width/height of 256px").
End Pipeline.

(** Collaborators that keep the height and width of what they are given:
    the OpenCV filters and the noise and JPEG helpers return an array of
    the size of their input, [cv2.resize] returns one of the size asked
    for, and the encoder accepts the stream and the decoder gives back one
    frame of the stream's size for every frame encoded. *)
Class SizePreserving `{Externals} : Prop := {
  filter2D_size : ∀ img ddepth kernel h w,
    has_size h w img → has_size h w (cv2_filter2D img ddepth kernel);
  resize_size : ∀ img w h,
    0 < w → 0 < h →
    ∃ out, cv2_resize img (w, h) = inr out ∧ has_size (Z.to_nat h) (Z.to_nat w) out;
  gaussian_noise_size : ∀ img sigma gray repeatable world h w,
    has_size h w img →
    has_size h w (fst (generate_gaussian_noise img sigma gray repeatable world));
  jpg_compression_size : ∀ img quality h w,
    has_size h w img → has_size h w (add_jpg_compression img quality);
  GaussianBlur_size : ∀ img ksize sigma h w,
    has_size h w img → has_size h w (cv2_GaussianBlur img ksize sigma);
  normal_size : ∀ mean std h w c world,
    has_size h w (fst (np_random_normal mean std (h, w, c) world));
  add_stream_accepts : ∀ codec rate options,
    av_add_stream codec rate options = inr tt;
  encode_decode_size : ∀ stream imgs,
    Forall (has_size (stream_height stream) (stream_width stream)) imgs →
    ∃ out, av_encode_decode stream imgs = inr out ∧
           length out = length imgs ∧
           Forall (has_size (stream_height stream) (stream_width stream)) out;
}.

(** ** Deterministic stand-ins for the collaborators

    Counter-driven generators and a lossless codec, in the manner of the
    fakes a test harness substitutes for the real ones.  The world is the
    state of the global NumPy generator. *)

Module Fake.
(** The draws [0.0, 0.1, ..., 0.9], in turn. *)
Definition rand (r : Z) : spec_float * Z := (F64.lit (r mod 10) 10, r + 1).

Definition pick_index (n : nat) (r : Z) : nat * Z :=
  (Z.to_nat (r mod Z.of_nat n), r + 1).

Definition np_pick_index (n : nat) (p : list spec_float) (g : Z) : nat * Z :=
  (Z.to_nat (g mod Z.of_nat n), g + 1).

Definition rand_int (low high g : Z) : Z * Z :=
  (if low <? high then low + g mod (high - low) else low, g + 1).

Definition rand_uniform (low high : spec_float) (g : Z) : spec_float * Z := (low, g + 1).

(** In repeatable mode both generators start from fixed seeds. *)
Definition rngs (repeatable_random : bool) (w : Z) : Z * Z :=
  if repeatable_random then (8, 42) else (w, w + 1).

Definition filled {A} (shape : nat * nat * nat) (x : A) : ndarray A :=
  let '(h, w, c) := shape in replicate h (replicate w (replicate c x)).

(** Every sample is [w/100], and the global state moves on. *)
Definition normal (mean std : spec_float) (shape : nat * nat * nat)
    (w : Z) : FloatImage * Z :=
  (filled shape (F64.lit w 100), w + 1).

Definition gaussian_noise (img : FloatImage) (sigma : spec_float)
    (gray_noise repeatable_random : bool) (w : Z) : FloatImage * Z :=
  (amap (λ _, F32.of_Z 0) img, if repeatable_random then w else w + 1).

Definition resize (img : FloatImage) (dsize : Z * Z) : result FloatImage :=
  let '(w, h) := dsize in
  if (0 <? w) && (0 <? h)
  then inr (replicate (Z.to_nat h)
              (replicate (Z.to_nat w)
                 (default [] (head (default [] (head img))))))
  else inl (Cv2Error "dsize")%string.

Definition externals : Externals := {|
  World := Z;
  PyRandom := Z;
  NpRandom := Z;
  Kernel := unit;
  get_rngs := rngs;
  random := rand;
  choice_index := pick_index;
  np_choice_index := np_pick_index;
  randint := rand_int;
  uniform := rand_uniform;
  np_random_normal := normal;
  py_pow := λ x y, F64.lit 316 100000;
  floordiv_int := λ n scale, Z.of_nat n;
  random_mixed_kernels := λ args w, (tt, w);
  generate_gaussian_noise := gaussian_noise;
  add_jpg_compression := λ img quality, img;
  cv2_filter2D := λ img ddepth kernel, img;
  cv2_resize := resize;
  cv2_GaussianBlur := λ img ksize sigma, img;
  codec_alignment := 4;
  av_add_stream := λ codec rate options, inr tt;
  av_encode_decode := λ stream imgs, inr imgs;
|}.

#[local] Existing Instance externals.

(** A black frame of the given size with three channels. *)
Definition frame (h w : nat) : Image := filled (h, w, 3%nat) 0.

(** A v2 parameter object: libx264 with CRF 23, no blur, no noise. *)
Definition params_v2 : V2.t :=
  {| V2._rng_numpy := 0;
     V2.video_codec := "libx264";
     V2.video_crf := Some 23;
     V2.video_bitrate := None;
     V2.should_add_video_compression := true;
     V2.blur_sigma := 2;
     V2.should_add_blur := false;
     V2.should_add_noise := false;
     V2.should_run_video_compression_second_pass := false |}.

(** A v1 parameter object with every flag off. *)
Definition params_v1 : V1.t :=
  {| V1.should_down_sample := false;
     V1.scale := F64.lit 15 10;
     V1.should_add_noise := false;
     V1.sigma := F64.of_Z 1;
     V1.repeatable_noise := true;
     V1.should_add_jpeg_compression := false;
     V1.jpeg_quality := F64.of_Z 80;
     V1.video_codec := "libx264";
     V1.video_bitrate := 20000;
     V1.should_add_video_compression := false;
     V1.should_add_blur := false;
     V1.blur_kernel := tt |}.

(** A v1 parameter object with only the video compression on. *)
Definition params_v1_video : V1.t :=
  {| V1.should_down_sample := false;
     V1.scale := F64.lit 15 10;
     V1.should_add_noise := false;
     V1.sigma := F64.of_Z 1;
     V1.repeatable_noise := true;
     V1.should_add_jpeg_compression := false;
     V1.jpeg_quality := F64.of_Z 80;
     V1.video_codec := "libx264";
     V1.video_bitrate := 20000;
     V1.should_add_video_compression := true;
     V1.should_add_blur := false;
     V1.blur_kernel := tt |}.

(** A grey single-channel frame, 256 high and 4 wide. *)
Definition grey_frame : Image := filled (256%nat, 4%nat, 1%nat) 100.

(** [params_v2] with the noise step on. *)
Definition params_v2_noise : V2.t :=
  {| V2._rng_numpy := 42;
     V2.video_codec := "libx264";
     V2.video_crf := Some 23;
     V2.video_bitrate := None;
     V2.should_add_video_compression := true;
     V2.blur_sigma := 2;
     V2.should_add_blur := false;
     V2.should_add_noise := true;
     V2.should_run_video_compression_second_pass := false |}.

(** A 256 x 256 frame with three channels, every value [v]. *)
Definition grey_rgb (v : Z) : Image := filled (256%nat, 256%nat, 3%nat) v.

(** What [noise] makes of the value [v] when the sample is [w/100]. *)
Definition noisy_value (v w : Z) : Z :=
  of_unit_f64
    (clip F64.zero F64.one (F64.add (to_unit_f64 v) (F64.lit w 100))).

(** The same stand-ins with an encoder that knows no codec. *)
Definition rejecting : Externals := {|
  World := Z;
  PyRandom := Z;
  NpRandom := Z;
  Kernel := unit;
  get_rngs := rngs;
  random := rand;
  choice_index := pick_index;
  np_choice_index := np_pick_index;
  randint := rand_int;
  uniform := rand_uniform;
  np_random_normal := normal;
  py_pow := λ x y, F64.lit 316 100000;
  floordiv_int := λ n scale, Z.of_nat n;
  random_mixed_kernels := λ args w, (tt, w);
  generate_gaussian_noise := gaussian_noise;
  add_jpg_compression := λ img quality, img;
  cv2_filter2D := λ img ddepth kernel, img;
  cv2_resize := resize;
  cv2_GaussianBlur := λ img ksize sigma, img;
  codec_alignment := 4;
  av_add_stream := λ codec rate options, inl (AvError "encoder not found");
  av_encode_decode := λ stream imgs, inr imgs;
|}.

(** [params_v2] for the rejecting encoder. *)
Definition rejecting_params_v2 : @V2.t rejecting :=
  @V2.Build_t rejecting 0 "libx264" (Some 23) None true 2 false false false.

(** [params_v1] with the down-sampling on. *)
Definition params_v1_down : V1.t :=
  {| V1.should_down_sample := true;
     V1.scale := F64.lit 15 10;
     V1.should_add_noise := false;
     V1.sigma := F64.of_Z 1;
     V1.repeatable_noise := true;
     V1.should_add_jpeg_compression := false;
     V1.jpeg_quality := F64.of_Z 80;
     V1.video_codec := "libx264";
     V1.video_bitrate := 20000;
     V1.should_add_video_compression := false;
     V1.should_add_blur := false;
     V1.blur_kernel := tt |}.
End Fake.

(** * Properties *)

(** ** The stand-ins meet the laws *)

Lemma fake_lawful : @Lawful Fake.externals.
Proof.
  split.
  - intros n r Hn. cbn. pose proof (Z.mod_pos_bound r (Z.of_nat n)). lia.
  - intros n p g Hn. cbn. pose proof (Z.mod_pos_bound g (Z.of_nat n)). lia.
  - intros low high g Hlt. cbn.
    destruct (Z.ltb_spec low high); [|lia].
    pose proof (Z.mod_pos_bound g (high - low)). lia.
  - reflexivity.
  - cbn. lia.
Qed.

(** ** The definitions on small inputs *)

Example pad_up_257 : pad_up 4 257 = 260%nat ∧ pad_up 4 255 = 256%nat.
Proof. split; reflexivity. Qed.

Example pad_up_256 : pad_up 4 256 = 256%nat.
Proof. reflexivity. Qed.

Example str_23 : str 23 = "23" ∧ str 0 = "0" ∧ str (-5) = "-5".
Proof. repeat split; reflexivity. Qed.

Example stream_options_x265_crf :
  stream_options_for "libx265" (Some 23)
  = {[ "crf" := "23"; "x265-params" := "log_level=error";
       "preset" := "veryfast" ]}.
Proof. vm_compute. reflexivity. Qed.

Example stream_options_vp9 : stream_options_for "libvpx-vp9" None = ∅.
Proof. vm_compute. reflexivity. Qed.

Example truthy_zero : truthy (Some 0) = false ∧ truthy (Some 23) = true.
Proof. split; reflexivity. Qed.

Example crop_2x1 :
  crop 2 1 [[[1]; [2]]; [[3]; [4]]; [[5]; [6]]] = [[[1]]; [[3]]].
Proof. reflexivity. Qed.

Example pad_frame_1x1 :
  pad_frame 2 2 [[[7; 8; 9]]] = [[[7; 8; 9]; [0; 0; 0]]; [[0; 0; 0]; [0; 0; 0]]].
Proof. reflexivity. Qed.

Example float32_of_255 : of_unit_f32 (to_unit_f32 255) = 255.
Proof. vm_compute. reflexivity. Qed.

Example clip_unit_interval :
  clip F64.zero F64.one (F64.lit 15 10) = F64.one ∧
  clip F64.zero F64.one (F64.lit 5 10) = F64.lit 5 10 ∧
  clip F32.zero F32.one (F32.div (F32.of_Z (-1)) (F32.of_Z 4)) = F32.zero.
Proof. repeat split; vm_compute; reflexivity. Qed.

Example astype_uint8_truncates :
  astype_uint8 (F64.lit 1029 10) = 102 ∧ astype_uint8 (F64.lit 5 10) = 0.
Proof. split; vm_compute; reflexivity. Qed.

(** ** The 8-bit / float round trips *)

Lemma below_forallb (f : Z → bool) (n : nat) :
  forallb f (map Z.of_nat (seq 0 n)) = true →
  ∀ v, 0 ≤ v < Z.of_nat n → f v = true.
Proof.
  intros Hall v Hv.
  rewrite forallb_forall in Hall. apply Hall.
  apply in_map_iff. exists (Z.to_nat v). split; [lia|].
  apply in_seq. lia.
Qed.

Lemma uint8_float32_roundtrip (v : Z) :
  is_uint8 v → of_unit_f32 (to_unit_f32 v) = v.
Proof.
  intros Hv. apply Z.eqb_eq.
  apply (below_forallb roundtrip_f32 256); [vm_compute; reflexivity | exact Hv].
Qed.

Lemma amap_roundtrip_f32 (img : Image) :
  is_uint8_image img → amap of_unit_f32 (amap to_unit_f32 img) = img.
Proof.
  unfold is_uint8_image, amap. intros Himg.
  induction Himg as [|row img Hrow _ IH]; [reflexivity|].
  cbn [map]. f_equal; [|exact IH].
  induction Hrow as [|px row Hpx _ IHrow]; [reflexivity|].
  cbn [map]. f_equal; [|exact IHrow].
  induction Hpx as [|v px Hv _ IHpx]; [reflexivity|].
  cbn [map]. f_equal; [exact (uint8_float32_roundtrip v Hv) | exact IHpx].
Qed.

Section FrameProperties.
Context `{Externals}.

(** C2: with every [should_*] flag of a v1 parameter object off,
    [apply_frame_degradation] returns the 8-bit image it was given, bit for
    bit: the division by 255 in float32, the multiplication by 255 and the
    truncation to 8 bits undo each other on every value in [0,256). *)
Theorem apply_frame_degradation_all_flags_off
    (img : Image) (p : V1.t) (world : World) :
  V1.should_down_sample p = false →
  V1.should_add_noise p = false →
  V1.should_add_jpeg_compression p = false →
  V1.should_add_video_compression p = false →
  V1.should_add_blur p = false →
  is_uint8_image img →
  apply_frame_degradation img p world = inr (img, world).
Proof.
  intros Hdown Hnoise Hjpeg _ Hblur Himg.
  unfold apply_frame_degradation. cbn [shape2].
  rewrite Hdown, Hnoise, Hjpeg, Hblur.
  unfold mbind, call_bind, bind, ret. cbn.
  rewrite (amap_roundtrip_f32 img Himg). reflexivity.
Qed.

(** C10: with [should_add_blur] and [should_add_noise] both off,
    [apply_frame_degradation_v2] hands back the very image it was given;
    no conversion to float takes place. *)
Theorem apply_frame_degradation_v2_flags_off
    (img : Image) (p : V2.t) (world : World) :
  V2.should_add_blur p = false →
  V2.should_add_noise p = false →
  apply_frame_degradation_v2 img p world = inr (img, world).
Proof.
  intros Hblur Hnoise. unfold apply_frame_degradation_v2.
  rewrite Hblur, Hnoise. reflexivity.
Qed.

(** C4: [apply_video_degradation_v2] checks the working resolution of the
    first frame before anything else.  When the larger of its height and
    width is not 256 the call raises the assertion error, whatever the
    codec and the degradations would have done; when it is 256 the call
    is the compression of the frames followed by the per-frame
    degradation. *)
Theorem apply_video_degradation_v2_resolution_check
    (img0 : Image) (imgs : list Image) (p : V2.t) (world : World) :
  (Nat.max (fst (shape2 img0)) (snd (shape2 img0)) ≠ 256%nat →
   apply_video_degradation_v2 (img0 :: imgs) p world
   = inl (AssertionError
            "video compression degradation expects width/height of 256px"))
  ∧
  (Nat.max (fst (shape2 img0)) (snd (shape2 img0)) = 256%nat →
   apply_video_degradation_v2 (img0 :: imgs) p world
   = (imgs_lq ← lift (apply_video_compression (img0 :: imgs)
                        (V2.video_codec p) (V2.video_bitrate p) None);
      for_each (λ img, apply_frame_degradation_v2 img p) imgs_lq) world).
Proof.
  unfold apply_video_degradation_v2, first.
  unfold mbind at 1 3. unfold call_bind, bind at 1 3, ret.
  split; intros Hmax.
  - apply Nat.eqb_neq in Hmax. rewrite Hmax. reflexivity.
  - rewrite Hmax. reflexivity.
Qed.
End FrameProperties.

(** ** The v2 parameter sampler *)

Section SamplerV2Properties.
Context `{Lawful}.

Lemma init_v2_sampled (repeatable_random : bool) (w : World) :
  ∃ p, V2.__init__ repeatable_random w = inr (p, w) ∧
       V2.in_codec_range p ∧ 1 ≤ V2.blur_sigma p < 4.
Proof.
  unfold V2.__init__.
  destruct (get_rngs repeatable_random w) as [rng_random g0].
  pose proof (np_choice_index_lt (length V2.available_codecs)
                V2.codec_probabilities g0) as Hlt.
  destruct (np_choice_index _ _ g0) as [i g1].
  cbn in Hlt. specialize (Hlt ltac:(lia)).
  assert (Hcases : (i = 0 ∨ i = 1 ∨ i = 2 ∨ i = 3)%nat) by lia.
  destruct Hcases as [-> | [-> | [-> | ->]]]; cbn;
    match goal with
    | |- context [randint ?low ?high g1] =>
        pose proof (randint_range low high g1 ltac:(lia)) as Hvalue;
        destruct (randint low high g1) as [value g2]
    end;
    destruct (random rng_random) as [u1 r1];
    pose proof (randint_range 1 4 g2 ltac:(lia)) as Hsigma;
    destruct (randint 1 4 g2) as [sigma g3];
    destruct (random r1) as [u2 r2];
    destruct (random r2) as [u3 r3];
    destruct (random r3) as [u4 r4];
    cbn in Hvalue, Hsigma;
    eexists; (split; [ reflexivity | ]); (split; [ | exact Hsigma ]);
    unfold V2.in_codec_range; cbn.
  - left. repeat split; eauto with lia.
  - right; left. repeat split; eauto with lia.
  - right; right; left. repeat split; eauto with lia.
  - right; right; right. repeat split; eauto with lia.
Qed.

Lemma uses_bitrate_cases (codec : string) :
  V2.uses_bitrate codec = true ∨ V2.uses_bitrate codec = false.
Proof. destruct (V2.uses_bitrate codec); [left | right]; reflexivity. Qed.

(** In repeatable mode the sampled v2 parameters do not depend on the state
    of the process. *)
Lemma init_v2_repeatable (w w' : World) :
  outcome (V2.__init__ true w) = outcome (V2.__init__ true w').
Proof.
  unfold V2.__init__. rewrite (get_rngs_repeatable w w').
  destruct (get_rngs true w') as [rng_random g0].
  destruct (np_choice_index _ _ g0) as [i g1].
  destruct (pick V2.available_codecs i) as [e|codec]; [reflexivity|].
  destruct (dict_get V2.codecs codec) as [e|[low high]]; [reflexivity|].
  destruct (randint low (high + 1) g1) as [value g2].
  destruct (uses_bitrate_cases codec) as [-> | ->];
    destruct (random rng_random) as [u1 r1];
    destruct (randint 1 4 g2) as [sigma g3];
    destruct (random r1) as [u2 r2];
    destruct (random r2) as [u3 r3];
    destruct (random r3) as [u4 r4];
    reflexivity.
Qed.

(** C8: whatever the generators draw, the v2 constructor returns an object
    whose sampled value lies in the range of its codec, both ends
    included (CRF 16..28 for libx264 and 20..36 for libx265, bit rate
    6000..16000 for libvpx-vp9 and 18000..40000 for mpeg2video), and whose
    [blur_sigma] lies in [1,4). *)
Theorem init_v2_value_in_codec_range (repeatable_random : bool) (w : World) :
  ∃ p, V2.__init__ repeatable_random w = inr (p, w) ∧
       V2.in_codec_range p ∧ 1 ≤ V2.blur_sigma p < 4.
Proof. exact (init_v2_sampled repeatable_random w). Qed.

Lemma in_codec_range_rule (p : V2.t) : V2.in_codec_range p → V2.codec_rule p.
Proof.
  unfold V2.in_codec_range, V2.codec_rule.
  intros [(-> & Hb & c & -> & _) | [(-> & Hb & c & -> & _) |
          [(-> & Hc & b & -> & _) | (-> & Hc & b & -> & _)]]].
  - left. split; [set_solver|]. split; [by eexists | exact Hb].
  - left. split; [set_solver|]. split; [by eexists | exact Hb].
  - right. split; [set_solver|]. split; [exact Hc | by eexists].
  - right. split; [set_solver|]. split; [exact Hc | by eexists].
Qed.

Lemma reinit_second_pass_rule (p : V2.t) :
  V2.codec_rule (V2.reinit_second_pass p).
Proof.
  unfold V2.reinit_second_pass, V2.codec_rule.
  destruct (randint 24 28 (V2._rng_numpy p)) as [crf g]. cbn.
  left. split; [set_solver|]. split; [by eexists | reflexivity].
Qed.

(** C6: the object the v2 constructor returns, and the object after any
    number of [reinit_second_pass] calls on it, has exactly one of
    [video_crf] and [video_bitrate] set: the CRF when the codec is libx264
    or libx265, the bit rate when it is libvpx-vp9 or mpeg2video. *)
Theorem v2_crf_xor_bitrate (repeatable_random : bool) (w : World) :
  ∃ p, V2.__init__ repeatable_random w = inr (p, w) ∧
       ∀ n, V2.codec_rule (Nat.iter n V2.reinit_second_pass p).
Proof.
  destruct (init_v2_sampled repeatable_random w) as (p & Hinit & Hrange & _).
  exists p. split; [exact Hinit|].
  intros [|n]; cbn [Nat.iter].
  - exact (in_codec_range_rule p Hrange).
  - apply reinit_second_pass_rule.
Qed.

(** C7: after [reinit_second_pass] the codec is libx264, the bit rate is
    unset, the CRF is in [24,28), the blur, noise and second-pass flags
    are off and [should_add_video_compression] is what it was; every
    field but [video_crf] is the same whatever the generator draws. *)
Theorem reinit_second_pass_result (p : V2.t) :
  let p' := V2.reinit_second_pass p in
  V2.video_codec p' = "libx264" ∧
  V2.video_bitrate p' = None ∧
  (∃ crf, V2.video_crf p' = Some crf ∧ 24 ≤ crf < 28) ∧
  V2.should_add_blur p' = false ∧
  V2.should_add_noise p' = false ∧
  V2.should_run_video_compression_second_pass p' = false ∧
  V2.should_add_video_compression p' = V2.should_add_video_compression p ∧
  ∀ rng_numpy,
    V2.fixed_fields (V2.reinit_second_pass (V2.with_rng rng_numpy p))
    = V2.fixed_fields p'.
Proof.
  unfold V2.reinit_second_pass.
  pose proof (randint_range 24 28 (V2._rng_numpy p) ltac:(lia)) as Hcrf.
  destruct (randint 24 28 (V2._rng_numpy p)) as [crf g]. cbn in *.
  repeat split; try reflexivity.
  - exists crf. split; [reflexivity | exact Hcrf].
  - intros rng_numpy.
    destruct (randint 24 28 rng_numpy) as [crf' g']. reflexivity.
Qed.
End SamplerV2Properties.

(** At least one draw of the stand-in generators. *)
Lemma init_v2_value_in_codec_range_witness :
  ∃ p, V2.__init__ (H := Fake.externals) true 0 = inr (p, 0) ∧
       V2.in_codec_range p ∧ 1 ≤ V2.blur_sigma p < 4.
Proof. exact (@init_v2_value_in_codec_range Fake.externals fake_lawful true 0). Defined.

Lemma v2_crf_xor_bitrate_witness :
  ∃ p, V2.__init__ (H := Fake.externals) true 0 = inr (p, 0) ∧
       ∀ n, V2.codec_rule (Nat.iter n V2.reinit_second_pass p).
Proof. exact (@v2_crf_xor_bitrate Fake.externals fake_lawful true 0). Defined.

Lemma reinit_second_pass_result_witness :
  V2.video_crf (V2.reinit_second_pass Fake.params_v2) = Some 24 ∧
  ∃ crf, V2.video_crf (V2.reinit_second_pass Fake.params_v2) = Some crf ∧
         24 ≤ crf < 28.
Proof.
  split; [reflexivity|].
  exact (proj1 (proj2 (proj2
    (@reinit_second_pass_result Fake.externals fake_lawful Fake.params_v2)))).
Defined.

(** ** The v1 parameter sampler *)

Section SamplerV1Properties.
Context `{Lawful}.

Lemma and_draw_spec (requested : bool) (p : spec_float) (r : PyRandom) :
  and_draw requested p r = (requested && V1.bernoulli p r, V1.after_flag requested r).
Proof.
  unfold and_draw, V1.bernoulli, V1.after_flag.
  destruct requested; [|reflexivity].
  destruct (random r) as [u r']. reflexivity.
Qed.

(** C5: whatever the toggles and the draws, the v1 constructor returns an
    object in which every [should_*] flag is its toggle AND the Bernoulli
    draw made at that point of the [rng_random] stream, so a flag is never
    on when its toggle is off; and [scale], [sigma], [jpeg_quality],
    [video_codec], [video_bitrate] and [blur_kernel] are drawn whatever
    the toggles and the flags are. *)
Theorem init_v1_flags_and_values
    (args : V1.toggles) (repeatable_random : bool) (w : World) :
  let r0 := fst (get_rngs repeatable_random w) in
  let r1 := V1.after_flag (V1.want_down_sample args) r0 in
  let r2 := V1.after_flag (V1.want_noise args) r1 in
  let r3 := V1.after_flag (V1.want_image_compression args) r2 in
  let r4 := snd (choice_index (length (keys V1.codecs)) r3) in
  let r5 := V1.after_flag (V1.want_video_compression args) r4 in
  let g0 := snd (get_rngs repeatable_random w) in
  let g1 := snd (uniform (F64.lit 5 10) (F64.lit 2 1) g0) in
  let g2 := snd (uniform (F64.of_Z 0) (F64.of_Z 2) g1) in
  let g3 := snd (uniform (F64.of_Z 70) (F64.of_Z 90) g2) in
  ∃ p w',
    V1.__init__ args repeatable_random w = inr (p, w') ∧
    V1.should_down_sample p
      = V1.want_down_sample args && V1.bernoulli (F64.lit 5 10) r0 ∧
    V1.should_add_noise p
      = V1.want_noise args && V1.bernoulli (F64.lit 3 10) r1 ∧
    V1.should_add_jpeg_compression p
      = V1.want_image_compression args && V1.bernoulli (F64.lit 5 10) r2 ∧
    V1.should_add_video_compression p
      = V1.want_video_compression args && V1.bernoulli (F64.lit 5 10) r4 ∧
    V1.should_add_blur p
      = V1.want_blur args && V1.bernoulli (F64.lit 5 10) r5 ∧
    V1.scale p = fst (uniform (F64.lit 5 10) (F64.lit 2 1) g0) ∧
    V1.sigma p = fst (uniform (F64.of_Z 0) (F64.of_Z 2) g1) ∧
    V1.jpeg_quality p = fst (uniform (F64.of_Z 70) (F64.of_Z 90) g2) ∧
    pick (keys V1.codecs) (fst (choice_index (length (keys V1.codecs)) r3))
      = inr (V1.video_codec p) ∧
    (∃ low high,
       dict_get V1.codecs (V1.video_codec p) = inr (low, high) ∧
       V1.video_bitrate p = fst (randint low (high + 1) g3)) ∧
    V1.blur_kernel p
      = fst (random_mixed_kernels (V1.blur_kernel_args repeatable_random) w).
Proof.
  cbv zeta. unfold V1.__init__.
  destruct (get_rngs repeatable_random w) as [r0 g0].
  rewrite !and_draw_spec.
  cbn [V1.down_sample_range V1.sigma_range V1.jpeg_range fst snd].
  destruct (uniform (F64.lit 5 10) (F64.lit 2 1) g0) as [scale_ g1].
  cbn [fst snd].
  destruct (uniform (F64.of_Z 0) (F64.of_Z 2) g1) as [sigma_ g2].
  cbn [fst snd].
  destruct (uniform (F64.of_Z 70) (F64.of_Z 90) g2) as [quality g3].
  cbn [fst snd].
  pose proof (choice_index_lt (length (keys V1.codecs))
                (V1.after_flag (V1.want_image_compression args)
                   (V1.after_flag (V1.want_noise args)
                      (V1.after_flag (V1.want_down_sample args) r0)))) as Hlt.
  destruct (choice_index _ _) as [i r4].
  cbn in Hlt. specialize (Hlt ltac:(lia)).
  assert (Hcases : (i = 0 ∨ i = 1 ∨ i = 2 ∨ i = 3)%nat) by lia.
  destruct Hcases as [-> | [-> | [-> | ->]]]; cbn;
    match goal with
    | |- context [randint ?low ?high g3] =>
        destruct (randint low high g3) as [bitrate g4] eqn:Hb
    end;
    rewrite !and_draw_spec;
    destruct (random_mixed_kernels _ w) as [kernel w'];
    do 2 eexists; (split; [ reflexivity | ]); cbn;
    repeat (split; [ reflexivity | ]);
    (split; [ | reflexivity ]);
    do 2 eexists; (split; [ reflexivity | ]); rewrite Hb; reflexivity.
Qed.
End SamplerV1Properties.

(** ** What reaches the encoder, and where the noise comes from *)

(** C3: in the v2 pipeline the sampled [video_crf] never reaches the
    encoder.  The pipeline returns the same result whatever [video_crf] is,
    the options built for its encode have no [crf] entry for any codec, and
    for the libx264 object with CRF 23 and no bit rate the stream is set up
    with the [preset] option alone and no bit rate: the encode is controlled
    by neither. *)
Theorem v2_video_crf_never_reaches_encoder :
  (∀ (E : Externals) (imgs : list Image) (p : V2.t) (crf : option Z) (w : World),
     apply_video_degradation_v2 imgs (V2.with_crf crf p) w
     = apply_video_degradation_v2 imgs p w) ∧
  (∀ codec : string, stream_options_for codec None !! "crf" = None) ∧
  V2.video_crf Fake.params_v2 = Some 23 ∧
  stream_setup (H := Fake.externals)
    (pad_to_compatible_size_for_video_codecs (H := Fake.externals)
       [Fake.frame 256 256])
    (V2.video_codec Fake.params_v2) (V2.video_bitrate Fake.params_v2) None
  = inr {| stream_codec := "libx264";
           stream_rate := 1;
           stream_options := {[ "preset" := "veryfast" ]};
           stream_height := 256;
           stream_width := 256;
           stream_pix_fmt := "yuv420p";
           stream_bit_rate := None |}.
Proof.
  split; [|split; [|split]].
  - intros E imgs p crf w. reflexivity.
  - intros codec. unfold stream_options_for.
    destruct (String.eqb codec "libx265"), (String.eqb codec "libx264"); cbn;
      repeat (rewrite lookup_insert_ne by discriminate);
      apply lookup_empty.
  - reflexivity.
  - vm_compute. reflexivity.
Qed.

(** ** Frame counts and frame sizes *)

Lemma has_size_amap {A B} (f : A → B) (h w : nat) (a : ndarray A) :
  has_size h w a → has_size h w (amap f a).
Proof.
  unfold has_size, amap. intros [Hlen Hrows]. split.
  - rewrite length_map. exact Hlen.
  - apply Forall_map. eapply Forall_impl; [exact Hrows|].
    intros row Hrow. cbn beta. rewrite length_map. exact Hrow.
Qed.

Lemma has_size_azip {A B C} (f : A → B → C) (h w : nat)
    (a : ndarray A) (b : ndarray B) :
  has_size h w a → has_size h w b → has_size h w (azip f a b).
Proof.
  unfold has_size, azip. intros [Hla Hra] [Hlb Hrb]. split.
  - rewrite length_zip_with. lia.
  - clear Hla Hlb. revert b Hrb.
    induction Hra as [|ra a Hrow _ IH]; intros b Hrb; [constructor|].
    destruct Hrb as [|rb b Hrowb Hrb]; [constructor|].
    cbn. constructor; [|exact (IH b Hrb)].
    rewrite length_zip_with. lia.
Qed.

Lemma shape2_has_size {A} (h w : nat) (a : ndarray A) :
  has_size h w a → (0 < h)%nat → shape2 a = (h, w).
Proof.
  unfold has_size, shape2. intros [Hlen Hrows] Hh.
  destruct Hrows as [|row a Hrow _]; cbn in *; [lia|].
  congruence.
Qed.

Lemma shape3_has_size {A} (h w : nat) (a : ndarray A) :
  has_size h w a → (0 < h)%nat → ∃ c, shape3 a = (h, w, c).
Proof.
  intros Ha Hh. pose proof (shape2_has_size h w a Ha Hh) as Hshape.
  unfold shape2 in Hshape. unfold shape3.
  eexists. rewrite Hshape. reflexivity.
Qed.

Lemma has_size_crop {A} (h w : nat) (a : ndarray A) :
  has_size h w a → has_size h w (crop h w a).
Proof.
  unfold has_size, crop. intros [Hlen Hrows]. split.
  - rewrite length_map, length_take. lia.
  - apply Forall_map. apply Forall_take.
    eapply Forall_impl; [exact Hrows|].
    intros row Hrow. cbn beta in *. rewrite length_take. lia.
Qed.

Lemma pad_up_ge (align n : nat) : (n ≤ pad_up align n)%nat.
Proof. unfold pad_up. destruct (Nat.eqb _ 0); [reflexivity | apply Nat.le_add_r]. Qed.

Lemma pad_up_compatible (align n : nat) :
  (n `mod` align = 0)%nat → pad_up align n = n.
Proof. unfold pad_up. intros ->. reflexivity. Qed.

Lemma has_size_pad_frame (h w h' w' : nat) (img : Image) :
  has_size h w img → (h ≤ h')%nat → (w ≤ w')%nat →
  has_size h' w' (pad_frame h' w' img).
Proof.
  unfold has_size, pad_frame. intros [Hlen Hrows] Hh Hw. split.
  - rewrite length_app, length_map, length_replicate. lia.
  - apply Forall_app. split.
    + apply Forall_map. eapply Forall_impl; [exact Hrows|].
      intros row Hrow. cbn beta in *.
      rewrite length_app, length_replicate. lia.
    + apply Forall_replicate. apply length_replicate.
Qed.

Section SizeProperties.
Context `{SizePreserving}.

Lemma pad_sizes (imgs : list Image) (h w : nat) :
  Forall (has_size h w) imgs → (0 < h)%nat →
  length (pad_to_compatible_size_for_video_codecs imgs) = length imgs ∧
  Forall (has_size (pad_up codec_alignment h) (pad_up codec_alignment w))
    (pad_to_compatible_size_for_video_codecs imgs).
Proof.
  unfold pad_to_compatible_size_for_video_codecs.
  intros Himgs Hh. destruct Himgs as [|img0 imgs Himg0 Himgs]; [done|].
  rewrite (shape2_has_size h w img0 Himg0 Hh).
  split; [apply length_map|].
  apply Forall_map. eapply Forall_impl; [exact (Forall_cons_2 _ _ _ Himg0 Himgs)|].
  intros img Himg. cbn beta in *.
  apply (has_size_pad_frame h w); [exact Himg | apply pad_up_ge | apply pad_up_ge].
Qed.

(** The frames come back at the size they were encoded at, the padded
    one: the crop takes its bounds from the padded frames. *)
Lemma apply_video_compression_size
    (imgs : list Image) (codec : string) (bitrate crf : option Z) (h w : nat) :
  imgs ≠ [] → Forall (has_size h w) imgs → (0 < h)%nat →
  ∃ out,
    apply_video_compression imgs codec bitrate crf = inr out ∧
    length out = length imgs ∧
    Forall (has_size (pad_up codec_alignment h) (pad_up codec_alignment w)) out.
Proof.
  intros Hne Himgs Hh.
  destruct (pad_sizes imgs h w Himgs Hh) as [Hlen Hpadded].
  unfold apply_video_compression.
  destruct (pad_to_compatible_size_for_video_codecs imgs) as [|img0 padded] eqn:Hpad.
  { destruct imgs; [done | discriminate Hlen]. }
  pose proof (pad_up_ge codec_alignment h) as Hge.
  assert (Hshape : shape2 img0
                   = (pad_up codec_alignment h, pad_up codec_alignment w)).
  { apply shape2_has_size; [|lia]. by apply Forall_cons in Hpadded as [? _]. }
  rewrite Hshape.
  unfold _apply_video_compression, stream_setup.
  rewrite add_stream_accepts, Hshape. cbn [fst snd].
  match goal with
  | |- context [av_encode_decode ?stream ?frames] =>
      destruct (encode_decode_size stream frames Hpadded) as (out & -> & Hout & Hsizes)
  end.
  exists (map (crop (pad_up codec_alignment h) (pad_up codec_alignment w)) out).
  split; [reflexivity|]. split.
  - rewrite length_map. exact (eq_trans Hout Hlen).
  - apply Forall_map. eapply Forall_impl; [exact Hsizes|].
    intros img Himg. cbn in *. apply has_size_crop. exact Himg.
Qed.

Lemma for_each_size {W} (f : Image → call W Image) (P Q : Image → Prop)
    (imgs : list Image) (world : W) :
  (∀ img world,
     P img → ∃ out world', f img world = inr (out, world') ∧ Q out) →
  Forall P imgs →
  ∃ outs world',
    for_each f imgs world = inr (outs, world') ∧
    length outs = length imgs ∧ Forall Q outs.
Proof.
  intros Hf Himgs. revert world.
  induction Himgs as [|img imgs Himg _ IH]; intros world.
  - exists [], world. repeat split. constructor.
  - destruct (Hf img world Himg) as (out & world1 & Hout & HQ).
    destruct (IH world1) as (outs & world2 & Houts & Hlen & HQs).
    exists (out :: outs), world2.
    cbn [for_each]. unfold mbind, call_bind, bind.
    rewrite Hout, Houts. cbn.
    repeat split; [congruence | by constructor].
Qed.

(** The resize back to the original size succeeds and gives that size. *)
Ltac upsample h w :=
  match goal with
  | |- context [cv2_resize ?x (Z.of_nat w, Z.of_nat h)] =>
      let big := fresh "big" in
      let Hbig := fresh "Hbig" in
      destruct (resize_size x (Z.of_nat w) (Z.of_nat h) ltac:(lia) ltac:(lia))
        as (big & -> & Hbig);
      rewrite !Nat2Z.id in Hbig
  end.

Lemma apply_frame_degradation_size
    (img : Image) (p : V1.t) (world : World) (h w : nat) :
  has_size h w img → (0 < h)%nat → (0 < w)%nat →
  (V1.should_down_sample p = true →
   0 < floordiv_int w (V1.scale p) ∧ 0 < floordiv_int h (V1.scale p)) →
  ∃ out world',
    apply_frame_degradation img p world = inr (out, world') ∧ has_size h w out.
Proof.
  intros Himg Hh Hw Hpositive.
  unfold apply_frame_degradation.
  rewrite (shape2_has_size h w img Himg Hh).
  pose proof (has_size_amap to_unit_f32 h w img Himg) as Hfloat.
  set (blurred := if V1.should_add_blur p then _ else _).
  assert (Hblurred : has_size h w blurred).
  { subst blurred. destruct (V1.should_add_blur p); [by apply filter2D_size | done]. }
  clearbody blurred.
  assert (Hjpeg : ∀ (img_lq : FloatImage) h' w',
            has_size h' w' img_lq →
            has_size h' w'
              (if V1.should_add_jpeg_compression p
               then add_jpg_compression img_lq (V1.jpeg_quality p)
               else img_lq)).
  { intros img_lq h' w' Hlq.
    destruct (V1.should_add_jpeg_compression p); [by apply jpg_compression_size | done]. }
  unfold mbind, call_bind, bind.
  destruct (V1.should_down_sample p) eqn:Hdown.
  - destruct (Hpositive eq_refl) as [Hw' Hh'].
    destruct (resize_size blurred _ _ Hw' Hh') as (small & -> & Hsmall).
    cbn [lift].
    destruct (V1.should_add_noise p).
    + pose proof (gaussian_noise_size small (V1.sigma p) false
                    (V1.repeatable_noise p) world _ _ Hsmall) as Hn.
      destruct (generate_gaussian_noise small _ _ _ world) as [samples world1].
      cbn [fst] in Hn.
      pose proof (has_size_amap (clip F32.zero F32.one) _ _ _
                    (has_size_azip F32.add _ _ _ _ Hsmall Hn)) as Hnoisy.
      apply Hjpeg in Hnoisy. upsample h w.
      do 2 eexists. split; [reflexivity|]. by apply has_size_amap.
    + cbn [ret]. apply Hjpeg in Hsmall. upsample h w.
      do 2 eexists. split; [reflexivity|]. by apply has_size_amap.
  - cbn [ret].
    destruct (V1.should_add_noise p).
    + pose proof (gaussian_noise_size blurred (V1.sigma p) false
                    (V1.repeatable_noise p) world _ _ Hblurred) as Hn.
      destruct (generate_gaussian_noise blurred _ _ _ world) as [samples world1].
      cbn [fst] in Hn.
      pose proof (has_size_amap (clip F32.zero F32.one) _ _ _
                    (has_size_azip F32.add _ _ _ _ Hblurred Hn)) as Hnoisy.
      apply Hjpeg in Hnoisy.
      do 2 eexists. split; [reflexivity|]. by apply has_size_amap.
    + apply Hjpeg in Hblurred.
      do 2 eexists. split; [reflexivity|]. by apply has_size_amap.
Qed.

Lemma apply_frame_degradation_v2_size
    (img : Image) (p : V2.t) (world : World) (h w : nat) :
  has_size h w img → (0 < h)%nat →
  ∃ out world',
    apply_frame_degradation_v2 img p world = inr (out, world') ∧
    has_size h w out.
Proof.
  intros Himg Hh. unfold apply_frame_degradation_v2.
  set (blurred := if V2.should_add_blur p then _ else _).
  assert (Hblurred : has_size h w blurred).
  { subst blurred. destruct (V2.should_add_blur p); [by apply GaussianBlur_size | done]. }
  clearbody blurred.
  destruct (V2.should_add_noise p).
  - unfold noise.
    destruct (shape3_has_size h w (amap to_unit_f64 blurred)
                (has_size_amap _ h w blurred Hblurred) Hh) as [c ->].
    match goal with
    | |- context [np_random_normal ?mean ?std _ world] =>
        pose proof (normal_size mean std h w c world) as Hn;
        destruct (np_random_normal mean std (h, w, c) world) as [samples world1]
    end.
    do 2 eexists. split; [reflexivity|].
    apply has_size_amap, has_size_amap, has_size_azip; [|exact Hn].
    by apply has_size_amap.
  - do 2 eexists. split; [reflexivity | exact Hblurred].
Qed.

(** [apply_video_degradation]: one frame out per frame in; with the video
    compression on, at the padded size. *)
Lemma apply_video_degradation_sizes
    (imgs : list Image) (h w : nat) (p : V1.t) (world : World) :
  imgs ≠ [] → Forall (has_size h w) imgs → (0 < h)%nat → (0 < w)%nat →
  (V1.should_down_sample p = true →
   0 < floordiv_int w (V1.scale p) ∧ 0 < floordiv_int h (V1.scale p)) →
  ∃ out world',
    apply_video_degradation imgs p world = inr (out, world') ∧
    length out = length imgs ∧
    Forall (if V1.should_add_video_compression p
            then has_size (pad_up codec_alignment h) (pad_up codec_alignment w)
            else has_size h w) out.
Proof.
  intros Hne Himgs Hh Hw Hpositive.
  destruct (for_each_size (λ img, apply_frame_degradation img p)
              (has_size h w) (has_size h w) imgs world)
    as (frames & world1 & Hframes & Hlen & Hsizes); [|exact Himgs|].
  { intros img world0 Himg.
    exact (apply_frame_degradation_size img p world0 h w Himg Hh Hw Hpositive). }
  unfold apply_video_degradation, mbind, call_bind, bind. rewrite Hframes.
  destruct (V1.should_add_video_compression p).
  - destruct (apply_video_compression_size frames (V1.video_codec p)
                (Some (V1.video_bitrate p)) None h w)
      as (out & Hout & Hlen' & Hsizes'); [|exact Hsizes|exact Hh|].
    { intros ->. destruct imgs; [done | discriminate Hlen]. }
    exists out, world1. unfold lift. rewrite Hout.
    split; [reflexivity|]. split; [congruence | exact Hsizes'].
  - exists frames, world1. split; [reflexivity|]. split; [exact Hlen | exact Hsizes].
Qed.

(** [apply_video_degradation_v2] at the working resolution: one frame out
    per frame in, at the padded size. *)
Lemma apply_video_degradation_v2_sizes
    (imgs : list Image) (h w : nat) (p : V2.t) (world : World) :
  imgs ≠ [] → Forall (has_size h w) imgs → (0 < h)%nat →
  Nat.max h w = 256%nat →
  ∃ out world',
    apply_video_degradation_v2 imgs p world = inr (out, world') ∧
    length out = length imgs ∧
    Forall (has_size (pad_up codec_alignment h) (pad_up codec_alignment w)) out.
Proof.
  intros Hne Himgs Hh Hmax.
  destruct (apply_video_compression_size imgs (V2.video_codec p)
              (V2.video_bitrate p) None h w Hne Himgs Hh)
    as (frames & Hframes & Hlen & Hsizes).
  destruct (for_each_size (λ img, apply_frame_degradation_v2 img p)
              (has_size (pad_up codec_alignment h) (pad_up codec_alignment w))
              (has_size (pad_up codec_alignment h) (pad_up codec_alignment w))
              frames world)
    as (out & world1 & Hout & Hlen' & Hsizes'); [|exact Hsizes|].
  { intros img world0 Himg. apply apply_frame_degradation_v2_size; [exact Himg|].
    pose proof (pad_up_ge codec_alignment h). lia. }
  exists out, world1.
  unfold apply_video_degradation_v2.
  destruct Himgs as [|img0 imgs Himg0 Himgs]; [done|].
  unfold first, mbind, call_bind, bind, ret.
  rewrite (shape2_has_size h w img0 Himg0 Hh). cbn [fst snd].
  rewrite Hmax. cbn [Nat.eqb].
  unfold lift. rewrite Hframes.
  split; [exact Hout|]. split; [congruence | exact Hsizes'].
Qed.

(** Where no padding is needed the sizes are kept: for a non-empty list of
    frames of one size, with collaborators that keep sizes and a codec
    round trip that returns one frame of the encoded size per frame
    encoded, [apply_video_degradation] returns as many frames as it was
    given, each of the height and width of the input, provided the size
    needs no padding when the video compression is on;
    [apply_video_degradation_v2] does the same when the larger of height
    and width is 256 and the size needs no padding, and raises the
    assertion error when the larger of the two is not 256. *)
Lemma video_degradation_count_and_size
    (imgs : list Image) (h w : nat) (p1 : V1.t) (p2 : V2.t) (world : World) :
  imgs ≠ [] → Forall (has_size h w) imgs → (0 < h)%nat → (0 < w)%nat →
  ((V1.should_down_sample p1 = true →
    0 < floordiv_int w (V1.scale p1) ∧ 0 < floordiv_int h (V1.scale p1)) →
   (V1.should_add_video_compression p1 = true → codec_compatible h w) →
   ∃ out world',
     apply_video_degradation imgs p1 world = inr (out, world') ∧
     length out = length imgs ∧ Forall (has_size h w) out)
  ∧
  (Nat.max h w = 256%nat → codec_compatible h w →
   ∃ out world',
     apply_video_degradation_v2 imgs p2 world = inr (out, world') ∧
     length out = length imgs ∧ Forall (has_size h w) out)
  ∧
  (Nat.max h w ≠ 256%nat →
   apply_video_degradation_v2 imgs p2 world
   = inl (AssertionError
            "video compression degradation expects width/height of 256px")).
Proof.
  intros Hne Himgs Hh Hw. split; [|split].
  - intros Hpositive Hcompatible.
    destruct (apply_video_degradation_sizes imgs h w p1 world
                Hne Himgs Hh Hw Hpositive)
      as (out & world1 & Hout & Hlen & Hsizes).
    exists out, world1. split; [exact Hout|]. split; [exact Hlen|].
    destruct (V1.should_add_video_compression p1); [|exact Hsizes].
    destruct (Hcompatible eq_refl) as [Hch Hcw].
    rewrite (pad_up_compatible _ h Hch), (pad_up_compatible _ w Hcw) in Hsizes.
    exact Hsizes.
  - intros Hmax [Hch Hcw].
    destruct (apply_video_degradation_v2_sizes imgs h w p2 world
                Hne Himgs Hh Hmax)
      as (out & world1 & Hout & Hlen & Hsizes).
    exists out, world1. split; [exact Hout|]. split; [exact Hlen|].
    rewrite (pad_up_compatible _ h Hch), (pad_up_compatible _ w Hcw) in Hsizes.
    exact Hsizes.
  - intros Hmax.
    destruct Himgs as [|img0 imgs Himg0 Himgs]; [done|].
    unfold apply_video_degradation_v2, first, mbind, call_bind, bind, ret.
    rewrite (shape2_has_size h w img0 Himg0 Hh). cbn [fst snd].
    apply Nat.eqb_neq in Hmax. rewrite Hmax. reflexivity.
Qed.

(** C1: the frames do not come back at the size they were given.
    [apply_video_compression] reads the crop bounds [h, w] from the padded
    frames, so for a non-empty list of frames of one size (collaborators
    that keep sizes, a codec round trip returning one frame of the encoded
    size per frame encoded) [apply_video_degradation] with the video
    compression on returns as many frames as it was given, each at the
    padded height and width, and so does [apply_video_degradation_v2] on
    frames at the working resolution: a frame that needed padding is
    returned at the padded size, not at the original one. *)
Theorem video_degradation_returns_padded_size
    (imgs : list Image) (h w : nat) (p1 : V1.t) (p2 : V2.t) (world : World) :
  imgs ≠ [] → Forall (has_size h w) imgs → (0 < h)%nat → (0 < w)%nat →
  (V1.should_down_sample p1 = true →
   0 < floordiv_int w (V1.scale p1) ∧ 0 < floordiv_int h (V1.scale p1)) →
  (V1.should_add_video_compression p1 = true →
   ∃ out world',
     apply_video_degradation imgs p1 world = inr (out, world') ∧
     length out = length imgs ∧
     Forall (has_size (pad_up codec_alignment h) (pad_up codec_alignment w)) out)
  ∧
  (Nat.max h w = 256%nat →
   ∃ out world',
     apply_video_degradation_v2 imgs p2 world = inr (out, world') ∧
     length out = length imgs ∧
     Forall (has_size (pad_up codec_alignment h) (pad_up codec_alignment w)) out).
Proof.
  intros Hne Himgs Hh Hw Hpositive. split.
  - intros Hvideo.
    destruct (apply_video_degradation_sizes imgs h w p1 world
                Hne Himgs Hh Hw Hpositive)
      as (out & world1 & Hout & Hlen & Hsizes).
    rewrite Hvideo in Hsizes.
    exists out, world1. split; [exact Hout|]. split; [exact Hlen | exact Hsizes].
  - intros Hmax.
    exact (apply_video_degradation_v2_sizes imgs h w p2 world Hne Himgs Hh Hmax).
Qed.
End SizeProperties.

(** ** The properties at the stand-in collaborators *)

#[local] Existing Instance Fake.externals.

Lemma has_size_filled {A} (h w c : nat) (x : A) :
  has_size h w (Fake.filled (h, w, c) x).
Proof.
  unfold has_size, Fake.filled. split.
  - apply length_replicate.
  - apply Forall_replicate. apply length_replicate.
Qed.

Lemma fake_size_preserving : @SizePreserving Fake.externals.
Proof.
  split; cbn.
  - intros img ddepth kernel h w Himg. exact Himg.
  - intros img w h Hw Hh. unfold Fake.resize.
    destruct (Z.ltb_spec 0 w); [|lia]. destruct (Z.ltb_spec 0 h); [|lia].
    cbn. eexists. split; [reflexivity|].
    split; [apply length_replicate|].
    apply Forall_replicate. apply length_replicate.
  - intros img sigma gray repeatable world h w Himg.
    unfold Fake.gaussian_noise. cbn. by apply has_size_amap.
  - intros img quality h w Himg. exact Himg.
  - intros img ksize sigma h w Himg. exact Himg.
  - intros mean std h w c world. apply has_size_filled.
  - reflexivity.
  - intros stream imgs Himgs. exists imgs. done.
Qed.

Lemma amap_filled {A B} (f : A → B) (h w c : nat) (x : A) :
  amap f (Fake.filled (h, w, c) x) = Fake.filled (h, w, c) (f x).
Proof.
  unfold amap, Fake.filled.
  assert (Hmap : ∀ {X Y} (g : X → Y) n y, map g (replicate n y) = replicate n (g y)).
  { intros X Y g n y. induction n as [|n IH]; [reflexivity|]. cbn. by rewrite IH. }
  by rewrite !Hmap.
Qed.

Lemma azip_filled {A B C} (f : A → B → C) (h w c : nat) (x : A) (y : B) :
  azip f (Fake.filled (h, w, c) x) (Fake.filled (h, w, c) y)
  = Fake.filled (h, w, c) (f x y).
Proof.
  unfold azip, Fake.filled.
  assert (Hzip : ∀ {X Y Z} (g : X → Y → Z) n u v,
            zip_with g (replicate n u) (replicate n v) = replicate n (g u v)).
  { intros X Y Z g n u v. induction n as [|n IH]; [reflexivity|]. cbn. by rewrite IH. }
  by rewrite !Hzip.
Qed.

Lemma shape3_filled {A} (h w c : nat) (x : A) :
  shape3 (Fake.filled (S h, S w, c) x) = (S h, S w, c).
Proof. unfold shape3, Fake.filled. cbn. by rewrite !length_replicate. Qed.

(** With the stand-in sampler, [noise] turns a frame of one value into a
    frame of one value and moves the global state on. *)
Lemma fake_noise_filled (h w c : nat) (v snr world : Z) :
  noise (H := Fake.externals) (Fake.filled (S h, S w, c) v) snr world
  = inr (Fake.filled (S h, S w, c) (Fake.noisy_value v world), world + 1).
Proof.
  unfold noise. rewrite amap_filled, shape3_filled.
  change (@np_random_normal Fake.externals) with Fake.normal.
  unfold Fake.normal.
  rewrite azip_filled, !amap_filled. reflexivity.
Qed.

(** A v2 call with the noise on and the blur off, on one frame that the
    compression returns as it is, is the noise on that frame. *)
Lemma apply_video_degradation_v2_noise_only `{Externals}
    (img : Image) (p : V2.t) (world : World) :
  Nat.eqb (Nat.max (fst (shape2 img)) (snd (shape2 img))) 256 = true →
  apply_video_compression [img] (V2.video_codec p) (V2.video_bitrate p) None
  = inr [img] →
  V2.should_add_blur p = false →
  V2.should_add_noise p = true →
  apply_video_degradation_v2 [img] p world
  = match noise img 50 world with
    | inl e => inl e
    | inr (out, world') => inr ([out], world')
    end.
Proof.
  intros Hmax Hcodec Hblur Hnoise.
  unfold apply_video_degradation_v2, first, mbind, call_bind, bind, ret, lift.
  rewrite Hmax, Hcodec. cbn [for_each].
  unfold apply_frame_degradation_v2, mbind, call_bind, bind, ret.
  rewrite Hblur, Hnoise.
  destruct (noise img 50 world) as [e|[out world']]; reflexivity.
Qed.

(** C9: the frames [apply_video_degradation_v2] returns are not repeatable.
    The call never consults the seeded generator its parameter object
    holds: replacing that generator changes nothing.  The noise is drawn
    from the global NumPy state instead: on one 256 x 256 RGB frame of
    value 100, with an object whose noise flag is on, the call returns a
    frame of 100s when the global generator is in one state and a frame of
    102s when it is in another (stand-in sampler and lossless codec), for
    the same frames and the same parameters. *)
Theorem v2_noise_reads_global_state :
  (∀ (E : Externals) (imgs : list Image) (p : V2.t)
     (rng_numpy : NpRandom) (w : World),
     apply_video_degradation_v2 imgs (V2.with_rng rng_numpy p) w
     = apply_video_degradation_v2 imgs p w) ∧
  V2.should_add_noise Fake.params_v2_noise = true ∧
  apply_video_degradation_v2 [Fake.grey_rgb 100] Fake.params_v2_noise 0
  = inr ([Fake.grey_rgb 100], 1) ∧
  apply_video_degradation_v2 [Fake.grey_rgb 100] Fake.params_v2_noise 1
  = inr ([Fake.grey_rgb 102], 2).
Proof.
  split; [|split]; [intros E imgs p rng_numpy w; reflexivity | reflexivity |].
  assert (Hrun : ∀ world,
            apply_video_degradation_v2 [Fake.grey_rgb 100] Fake.params_v2_noise world
            = inr ([Fake.grey_rgb (Fake.noisy_value 100 world)], world + 1)).
  { intros world.
    rewrite (apply_video_degradation_v2_noise_only (Fake.grey_rgb 100)
               Fake.params_v2_noise world);
      [|vm_compute; reflexivity|vm_compute; reflexivity|reflexivity|reflexivity].
    unfold Fake.grey_rgb. rewrite fake_noise_filled. reflexivity. }
  split; rewrite Hrun; reflexivity.
Qed.

(** A v2 call on a 257 x 255 frame does not return frames: it raises. *)
Lemma apply_video_degradation_v2_rejects_257x255 :
  ¬ ∃ out world',
      apply_video_degradation_v2 (H := Fake.externals)
        [Fake.frame 257 255] Fake.params_v2 0 = inr (out, world') ∧
      length out = 1%nat ∧ Forall (has_size 257 255) out.
Proof.
  intros (out & world' & Hrun & _). vm_compute in Hrun. discriminate Hrun.
Qed.

(** A 257 x 255 frame comes back from [apply_video_degradation] at
    260 x 256, and a 256 x 255 frame from [apply_video_degradation_v2] at
    256 x 256: the sizes they were padded to for a codec that wants
    multiples of four. *)
Lemma video_degradation_returns_padded_size_witness :
  (∃ out world',
     apply_video_degradation [Fake.frame 257 255] Fake.params_v1_video 0
     = inr (out, world') ∧
     length out = 1%nat ∧ Forall (has_size 260 256) out ∧
     ¬ Forall (has_size 257 255) out) ∧
  (∃ out world',
     apply_video_degradation_v2 [Fake.frame 256 255] Fake.params_v2 0
     = inr (out, world') ∧
     length out = 1%nat ∧ Forall (has_size 256 256) out).
Proof.
  assert (Hframe : ∀ h w, Forall (has_size h w) [Fake.frame h w]).
  { intros h w. constructor; [apply has_size_filled | constructor]. }
  split.
  - destruct (proj1 (@video_degradation_returns_padded_size Fake.externals
                       fake_size_preserving [Fake.frame 257 255] 257 255
                       Fake.params_v1_video Fake.params_v2 0
                       ltac:(discriminate) (Hframe _ _) ltac:(lia) ltac:(lia)
                       ltac:(discriminate)) eq_refl)
      as (out & world' & Hrun & Hlen & Hsizes).
    exists out, world'. split; [exact Hrun|]. split; [exact Hlen|].
    split; [exact Hsizes|].
    intros Horiginal. destruct out as [|img out]; [discriminate Hlen|].
    apply Forall_cons in Hsizes as [[Hpadded _] _].
    apply Forall_cons in Horiginal as [[Hheight _] _].
    cbn in Hpadded. lia.
  - refine (proj2 (@video_degradation_returns_padded_size Fake.externals
                     fake_size_preserving [Fake.frame 256 255] 256 255
                     Fake.params_v1_video Fake.params_v2 0
                     _ (Hframe _ _) _ _ _) _).
    + discriminate.
    + lia.
    + lia.
    + discriminate.
    + reflexivity.
Defined.

Lemma video_degradation_count_and_size_witness :
  (∃ out world',
     apply_video_degradation (H := Fake.externals)
       [Fake.frame 256 256] Fake.params_v1_video 0 = inr (out, world') ∧
     length out = 1%nat ∧ Forall (has_size 256 256) out) ∧
  (∃ out world',
     apply_video_degradation_v2 (H := Fake.externals)
       [Fake.frame 256 256] Fake.params_v2 0 = inr (out, world') ∧
     length out = 1%nat ∧ Forall (has_size 256 256) out) ∧
  apply_video_degradation_v2 (H := Fake.externals)
    [Fake.frame 257 255] Fake.params_v2 0
  = inl (AssertionError
           "video compression degradation expects width/height of 256px").
Proof.
  assert (Hframe : ∀ h w, Forall (has_size h w) [Fake.frame h w]).
  { intros h w. constructor; [apply has_size_filled | constructor]. }
  pose proof (@video_degradation_count_and_size Fake.externals
                fake_size_preserving [Fake.frame 256 256] 256 256
                Fake.params_v1_video Fake.params_v2 0
                ltac:(discriminate) (Hframe _ _) ltac:(lia) ltac:(lia))
    as (Hv1 & Hv2 & _).
  pose proof (@video_degradation_count_and_size Fake.externals
                fake_size_preserving [Fake.frame 257 255] 257 255
                Fake.params_v1_video Fake.params_v2 0
                ltac:(discriminate) (Hframe _ _) ltac:(lia) ltac:(lia))
    as (_ & _ & Hreject).
  split; [|split].
  - apply Hv1; [discriminate | intros _; split; reflexivity].
  - apply Hv2; [reflexivity | split; reflexivity].
  - apply Hreject. vm_compute. lia.
Defined.

Lemma apply_frame_degradation_all_flags_off_witness :
  apply_frame_degradation (H := Fake.externals)
    [[[0; 128; 255]; [17; 1; 254]]] Fake.params_v1 0
  = inr ([[[0; 128; 255]; [17; 1; 254]]], 0).
Proof.
  apply (@apply_frame_degradation_all_flags_off Fake.externals);
    try reflexivity.
  repeat constructor; unfold is_uint8; lia.
Defined.

Lemma apply_frame_degradation_v2_flags_off_witness :
  apply_frame_degradation_v2 (H := Fake.externals)
    [[[0; 128; 255]]] Fake.params_v2 0
  = inr ([[[0; 128; 255]]], 0).
Proof.
  apply (@apply_frame_degradation_v2_flags_off Fake.externals); reflexivity.
Defined.

Lemma apply_video_degradation_v2_resolution_check_witness :
  apply_video_degradation_v2 (H := Fake.externals)
    [Fake.frame 4 2] Fake.params_v2 0
  = inl (AssertionError
           "video compression degradation expects width/height of 256px") ∧
  apply_video_degradation_v2 (H := Fake.externals)
    [Fake.grey_frame] Fake.params_v2 0
  = (imgs_lq ← lift (apply_video_compression [Fake.grey_frame]
                       (V2.video_codec Fake.params_v2)
                       (V2.video_bitrate Fake.params_v2) None);
     for_each (λ img, apply_frame_degradation_v2 img Fake.params_v2) imgs_lq) 0.
Proof.
  split.
  - apply (@apply_video_degradation_v2_resolution_check Fake.externals).
    vm_compute. lia.
  - apply (@apply_video_degradation_v2_resolution_check Fake.externals).
    vm_compute. reflexivity.
Defined.

Lemma init_v1_flags_and_values_witness :
  ∃ p w',
    V1.__init__ (H := Fake.externals) V1.default_toggles true 0 = inr (p, w') ∧
    V1.should_add_video_compression p = false ∧
    V1.should_add_blur p = false.
Proof.
  destruct (@init_v1_flags_and_values Fake.externals fake_lawful
              V1.default_toggles true 0)
    as (p & w' & Hinit & _ & _ & _ & Hvideo & Hblur & _).
  exists p, w'. split; [exact Hinit|]. split; [exact Hvideo | exact Hblur].
Defined.

(** * Further properties of the module *)

(** ** The encoder options *)

(** X3: the options of the output stream, key by key.  [preset] is
    [veryfast] for libx264 and libx265 only, [x265-params] is set for
    libx265 only, [crf] holds the decimal CRF when one is given and is not
    zero (a CRF of 0 is dropped like a missing one), and no other key is
    ever set. *)
Theorem stream_options_lookup (codec : string) (crf : option Z) (key : string) :
  stream_options_for codec crf !! key =
    if String.eqb key "preset" then
      if String.eqb codec "libx264" || String.eqb codec "libx265"
      then Some "veryfast" else None
    else if String.eqb key "x265-params" then
      if String.eqb codec "libx265" then Some "log_level=error" else None
    else if String.eqb key "crf" then
      match crf with
      | Some c => if c =? 0 then None else Some (str c)
      | None => None
      end
    else None.
Proof.
  unfold stream_options_for, truthy.
  destruct (String.eqb_spec key "preset") as [-> | Hpreset];
    [|destruct (String.eqb_spec key "x265-params") as [-> | Hparams];
      [|destruct (String.eqb_spec key "crf") as [-> | Hcrf]]];
    destruct (String.eqb codec "libx264"), (String.eqb codec "libx265");
    destruct crf as [c|]; try destruct (c =? 0); cbn;
    repeat first
      [ rewrite lookup_insert_eq
      | rewrite lookup_insert_ne by congruence
      | rewrite lookup_empty ];
    reflexivity.
Qed.

(** ** The pipelines on their edge inputs *)

Lemma for_each_identity {W A} (f : A → call W A) (xs : list A) (w : W) :
  Forall (λ x, ∀ w, f x w = inr (x, w)) xs → for_each f xs w = inr (xs, w).
Proof.
  intros Hxs. induction Hxs as [|x xs Hx _ IH]; [reflexivity|].
  cbn [for_each]. unfold mbind, call_bind, bind. rewrite Hx, IH. reflexivity.
Qed.

Lemma for_each_ext {W A B} (f g : A → call W B) (xs : list A) (w : W) :
  (∀ x w, f x w = g x w) → for_each f xs w = for_each g xs w.
Proof.
  intros Hfg. revert w. induction xs as [|x xs IH]; intros w; [reflexivity|].
  cbn [for_each]. unfold mbind, call_bind, bind. rewrite Hfg.
  destruct (g x w) as [e|[y w1]]; [reflexivity|].
  rewrite IH. reflexivity.
Qed.

Lemma crop_has_size {A} (h w : nat) (a : ndarray A) :
  has_size h w a → crop h w a = a.
Proof.
  unfold has_size, crop. intros [Hlen Hrows].
  rewrite take_ge by lia. clear Hlen.
  induction Hrows as [|row a Hrow _ IH]; [reflexivity|].
  cbn [map]. rewrite take_ge by lia. f_equal. exact IH.
Qed.

Section PipelineEdges.
Context `{Externals}.

(** X2: on an empty frame list [apply_video_degradation_v2] raises
    [IndexError] (the resolution check reads the first frame),
    [_apply_video_compression] raises [IndexError] once the stream has been
    accepted, and [apply_video_degradation] without video compression
    returns the empty list. *)
Theorem pipelines_on_empty_list (p1 : V1.t) (p2 : V2.t) (world : World) :
  apply_video_degradation_v2 [] p2 world = inl IndexError ∧
  (∀ codec bitrate crf,
     av_add_stream codec 1 (stream_options_for codec crf) = inr tt →
     _apply_video_compression [] codec bitrate crf = inl IndexError) ∧
  (V1.should_add_video_compression p1 = false →
   apply_video_degradation [] p1 world = inr ([], world)).
Proof.
  split; [reflexivity|]. split.
  - intros codec bitrate crf Haccepted.
    unfold _apply_video_compression, stream_setup. rewrite Haccepted. reflexivity.
  - intros Hoff. unfold apply_video_degradation. rewrite Hoff. reflexivity.
Qed.

Lemma apply_frame_degradation_identity (p : V1.t) (img : Image) (world : World) :
  V1.should_down_sample p = false →
  V1.should_add_noise p = false →
  V1.should_add_jpeg_compression p = false →
  V1.should_add_blur p = false →
  is_uint8_image img →
  apply_frame_degradation img p world = inr (img, world).
Proof.
  intros Hdown Hnoise Hjpeg Hblur Himg.
  unfold apply_frame_degradation. cbn [shape2].
  rewrite Hdown, Hnoise, Hjpeg, Hblur.
  unfold mbind, call_bind, bind, ret. cbn.
  rewrite (amap_roundtrip_f32 img Himg). reflexivity.
Qed.

(** X8: with the blur, down-sample, noise and JPEG flags of a v1 object
    off, [apply_video_degradation] on 8-bit frames is the video compression
    of exactly the frames it was given when [should_add_video_compression]
    is on, and returns the frames themselves when it is off. *)
Theorem apply_video_degradation_frame_flags_off
    (imgs : list Image) (p : V1.t) (world : World) :
  V1.should_down_sample p = false →
  V1.should_add_noise p = false →
  V1.should_add_jpeg_compression p = false →
  V1.should_add_blur p = false →
  Forall is_uint8_image imgs →
  apply_video_degradation imgs p world
  = if V1.should_add_video_compression p
    then lift (apply_video_compression imgs (V1.video_codec p)
                 (Some (V1.video_bitrate p)) None) world
    else inr (imgs, world).
Proof.
  intros Hdown Hnoise Hjpeg Hblur Himgs.
  unfold apply_video_degradation, mbind, call_bind, bind.
  rewrite for_each_identity.
  - destruct (V1.should_add_video_compression p); reflexivity.
  - eapply Forall_impl; [exact Himgs|].
    intros img Himg world0. cbn beta.
    by apply apply_frame_degradation_identity.
Qed.

(** X10: with [should_add_blur] and [should_add_noise] of a v2 object off,
    [apply_video_degradation_v2] on frames at the working resolution is
    the video compression alone: what the codec returns is returned as it
    is, and what it raises is raised. *)
Theorem apply_video_degradation_v2_flags_off
    (img0 : Image) (imgs : list Image) (p : V2.t) (world : World) :
  Nat.max (fst (shape2 img0)) (snd (shape2 img0)) = 256%nat →
  V2.should_add_blur p = false →
  V2.should_add_noise p = false →
  apply_video_degradation_v2 (img0 :: imgs) p world
  = lift (apply_video_compression (img0 :: imgs)
            (V2.video_codec p) (V2.video_bitrate p) None) world.
Proof.
  intros Hmax Hblur Hnoise.
  unfold apply_video_degradation_v2, first, mbind, call_bind, bind, ret.
  rewrite Hmax. cbn [Nat.eqb]. unfold lift.
  destruct (apply_video_compression _ _ _ _) as [e|imgs_lq]; [reflexivity|].
  apply for_each_identity. apply Forall_forall.
  intros img _ world0. unfold apply_frame_degradation_v2.
  rewrite Hblur, Hnoise. reflexivity.
Qed.

(** X9: after [reinit_second_pass] the result of
    [apply_video_degradation_v2] no longer depends on the parameter object:
    any two objects give the same second pass on the same frames, whatever
    they held before and whatever CRF was drawn. *)
Theorem second_pass_independent_of_object
    (imgs : list Image) (p p' : V2.t) (world : World) :
  apply_video_degradation_v2 imgs (V2.reinit_second_pass p) world
  = apply_video_degradation_v2 imgs (V2.reinit_second_pass p') world.
Proof.
  unfold apply_video_degradation_v2, mbind, call_bind, bind.
  destruct (first imgs world) as [e|[img0 world0]]; [reflexivity|].
  destruct (Nat.eqb _ 256); [|reflexivity].
  unfold V2.reinit_second_pass.
  destruct (randint 24 28 (V2._rng_numpy p)) as [crf g].
  destruct (randint 24 28 (V2._rng_numpy p')) as [crf' g'].
  cbn [V2.video_codec V2.video_bitrate].
  destruct (lift _ world0) as [e|[imgs_lq world1]]; [reflexivity|].
  apply for_each_ext. intros img world2. reflexivity.
Qed.

(** X11: an encoder that rejects the stream makes the whole call fail with
    the encoder's error: [apply_video_compression] on a non-empty list
    raises it, and so does [apply_video_degradation_v2] on frames at the
    working resolution; no frame is returned. *)
Theorem encoder_error_is_raised
    (img0 : Image) (imgs : list Image) (codec : string)
    (bitrate crf : option Z) (p : V2.t) (world : World) (e : exn) :
  (av_add_stream codec 1 (stream_options_for codec crf) = inl e →
   apply_video_compression (img0 :: imgs) codec bitrate crf = inl e) ∧
  (av_add_stream (V2.video_codec p) 1
     (stream_options_for (V2.video_codec p) None) = inl e →
   Nat.max (fst (shape2 img0)) (snd (shape2 img0)) = 256%nat →
   apply_video_degradation_v2 (img0 :: imgs) p world = inl e).
Proof.
  assert (Hcompression : ∀ codec bitrate crf,
            av_add_stream codec 1 (stream_options_for codec crf) = inl e →
            apply_video_compression (img0 :: imgs) codec bitrate crf = inl e).
  { intros codec0 bitrate0 crf0 Hrejected.
    unfold apply_video_compression, pad_to_compatible_size_for_video_codecs.
    destruct (shape2 img0) as [h w]. cbn [map].
    destruct (shape2 _) as [h' w'].
    unfold _apply_video_compression, stream_setup.
    rewrite Hrejected. reflexivity. }
  split; [apply Hcompression|].
  intros Hrejected Hmax.
  unfold apply_video_degradation_v2, first, mbind, call_bind, bind, ret.
  rewrite Hmax. cbn [Nat.eqb]. unfold lift.
  rewrite (Hcompression _ _ _ Hrejected). reflexivity.
Qed.
End PipelineEdges.

(** ** The noise step of the v2 degrader *)





Section NoiseProperties.
Context `{Externals}.

End NoiseProperties.

(** ** Sizes through the degraders *)

Section MoreSizeProperties.
Context `{SizePreserving}.

(** X1: the crop of [apply_video_compression] removes nothing.  With a
    decoder that returns frames of the stream's size, the call on a
    non-empty list of same-sized frames returns exactly what
    [_apply_video_compression] returns for the padded frames: the crop
    bounds are read from the padded frames, not from the frames given. *)
Theorem apply_video_compression_crop_removes_nothing
    (imgs : list Image) (codec : string) (bitrate crf : option Z) (h w : nat) :
  imgs ≠ [] → Forall (has_size h w) imgs → (0 < h)%nat →
  apply_video_compression imgs codec bitrate crf
  = _apply_video_compression (pad_to_compatible_size_for_video_codecs imgs)
      codec bitrate crf.
Proof.
  intros Hne Himgs Hh.
  destruct (pad_sizes imgs h w Himgs Hh) as [Hlen Hpadded].
  unfold apply_video_compression.
  destruct (pad_to_compatible_size_for_video_codecs imgs) as [|img0 padded] eqn:Hpad.
  { destruct imgs; [done | discriminate Hlen]. }
  pose proof (pad_up_ge codec_alignment h) as Hge.
  assert (Hshape : shape2 img0
                   = (pad_up codec_alignment h, pad_up codec_alignment w)).
  { apply shape2_has_size; [|lia]. by apply Forall_cons in Hpadded as [? _]. }
  rewrite Hshape.
  unfold _apply_video_compression, stream_setup.
  rewrite add_stream_accepts, Hshape. cbn [fst snd].
  match goal with
  | |- context [av_encode_decode ?stream ?frames] =>
      destruct (encode_decode_size stream frames Hpadded) as (out & -> & _ & Hsizes)
  end.
  f_equal. cbn [stream_height stream_width] in Hsizes.
  induction Hsizes as [|img out Himg _ IH]; [reflexivity|].
  cbn [map]. rewrite (crop_has_size _ _ img Himg), IH. reflexivity.
Qed.

(** X13: [apply_frame_degradation] returns an image of the height and width
    of its input for every combination of flags, provided the collaborators
    keep sizes and, when the image is down-sampled, the down-sampled size is
    positive: the final resize goes back to the size read at the start. *)
Theorem apply_frame_degradation_keeps_size
    (img : Image) (p : V1.t) (world : World) (h w : nat) :
  has_size h w img → (0 < h)%nat → (0 < w)%nat →
  (V1.should_down_sample p = true →
   0 < floordiv_int w (V1.scale p) ∧ 0 < floordiv_int h (V1.scale p)) →
  ∃ out world',
    apply_frame_degradation img p world = inr (out, world') ∧ has_size h w out.
Proof. exact (apply_frame_degradation_size img p world h w). Qed.

(** X14: [apply_frame_degradation_v2] never raises and returns an image of
    the height and width of its input, with or without blur and noise,
    provided the blur and the sample generator keep sizes. *)
Theorem apply_frame_degradation_v2_keeps_size
    (img : Image) (p : V2.t) (world : World) (h w : nat) :
  has_size h w img → (0 < h)%nat →
  ∃ out world',
    apply_frame_degradation_v2 img p world = inr (out, world') ∧
    has_size h w out.
Proof. exact (apply_frame_degradation_v2_size img p world h w). Qed.

(** X15: when [cv2.resize] rejects the down-sampled size,
    [apply_frame_degradation] raises that error, and
    [apply_video_degradation] raises it for the whole list: no frame is
    returned once one frame fails. *)
Theorem down_sample_error_is_raised
    (img : Image) (imgs : list Image) (p : V1.t) (world : World) (e : exn) :
  V1.should_down_sample p = true →
  (∀ blurred,
     cv2_resize blurred
       (floordiv_int (snd (shape2 img)) (V1.scale p),
        floordiv_int (fst (shape2 img)) (V1.scale p)) = inl e) →
  apply_frame_degradation img p world = inl e ∧
  apply_video_degradation (img :: imgs) p world = inl e.
Proof.
  intros Hdown Hrejected.
  assert (Hframe : apply_frame_degradation img p world = inl e).
  { unfold apply_frame_degradation. cbn [shape2] in *.
    unfold mbind, call_bind, bind. rewrite Hdown.
    cbn [fst snd] in Hrejected. rewrite Hrejected. reflexivity. }
  split; [exact Hframe|].
  unfold apply_video_degradation. cbn [for_each].
  unfold mbind, call_bind, bind. rewrite Hframe. reflexivity.
Qed.
End MoreSizeProperties.

(** ** More on the v1 parameter sampler *)

Section MoreSamplerV1Properties.
Context `{Lawful}.

Lemma and_draw_requested (requested : bool) (p : spec_float) (r : PyRandom) :
  fst (and_draw requested p r) = true → requested = true.
Proof. unfold and_draw. destruct requested; [reflexivity | discriminate]. Qed.

(** What the v1 constructor returns: the codec and bit rate it drew, the
    flags against their toggles, and the values drawn from [rng_numpy] and
    by the kernel helper. *)
Lemma init_v1_sampled (args : V1.toggles) (repeatable_random : bool) (w : World) :
  let g0 := snd (get_rngs repeatable_random w) in
  let g1 := snd (uniform (F64.lit 5 10) (F64.lit 2 1) g0) in
  let g2 := snd (uniform (F64.of_Z 0) (F64.of_Z 2) g1) in
  ∃ p,
    V1.__init__ args repeatable_random w
    = inr (p, snd (random_mixed_kernels
                     (V1.blur_kernel_args repeatable_random) w)) ∧
    ((V1.video_codec p = "libx264" ∧ 15000 ≤ V1.video_bitrate p ≤ 100000) ∨
     (V1.video_codec p = "libx265" ∧ 10000 ≤ V1.video_bitrate p ≤ 60000) ∨
     (V1.video_codec p = "libvpx-vp9" ∧ 10000 ≤ V1.video_bitrate p ≤ 60000) ∨
     (V1.video_codec p = "mpeg4" ∧ 15000 ≤ V1.video_bitrate p ≤ 100000)) ∧
    (V1.should_down_sample p = true → V1.want_down_sample args = true) ∧
    (V1.should_add_noise p = true → V1.want_noise args = true) ∧
    (V1.should_add_jpeg_compression p = true →
     V1.want_image_compression args = true) ∧
    (V1.should_add_video_compression p = true →
     V1.want_video_compression args = true) ∧
    (V1.should_add_blur p = true → V1.want_blur args = true) ∧
    V1.scale p = fst (uniform (F64.lit 5 10) (F64.lit 2 1) g0) ∧
    V1.sigma p = fst (uniform (F64.of_Z 0) (F64.of_Z 2) g1) ∧
    V1.jpeg_quality p = fst (uniform (F64.of_Z 70) (F64.of_Z 90) g2) ∧
    V1.blur_kernel p
    = fst (random_mixed_kernels (V1.blur_kernel_args repeatable_random) w) ∧
    V1.repeatable_noise p = repeatable_random.
Proof.
  cbv zeta. unfold V1.__init__.
  destruct (get_rngs repeatable_random w) as [r0 g0].
  cbn [V1.down_sample_range V1.sigma_range V1.jpeg_range fst snd].
  pose proof (and_draw_requested (V1.want_down_sample args) (F64.lit 5 10) r0)
    as Hdown.
  destruct (and_draw (V1.want_down_sample args) _ r0) as [down r1].
  destruct (uniform (F64.lit 5 10) (F64.lit 2 1) g0) as [scale_ g1].
  cbn [fst snd].
  pose proof (and_draw_requested (V1.want_noise args) (F64.lit 3 10) r1)
    as Hnoise.
  destruct (and_draw (V1.want_noise args) _ r1) as [noise_ r2].
  destruct (uniform (F64.of_Z 0) (F64.of_Z 2) g1) as [sigma_ g2].
  cbn [fst snd].
  pose proof (and_draw_requested (V1.want_image_compression args)
                (F64.lit 5 10) r2) as Hjpeg.
  destruct (and_draw (V1.want_image_compression args) _ r2) as [jpeg r3].
  destruct (uniform (F64.of_Z 70) (F64.of_Z 90) g2) as [quality g3].
  cbn [fst snd].
  pose proof (choice_index_lt (length (keys V1.codecs)) r3) as Hlt.
  destruct (choice_index _ r3) as [i r4].
  cbn in Hlt. specialize (Hlt ltac:(lia)).
  assert (Hcases : (i = 0 ∨ i = 1 ∨ i = 2 ∨ i = 3)%nat) by lia.
  destruct Hcases as [-> | [-> | [-> | ->]]]; cbn;
    match goal with
    | |- context [randint ?low ?high g3] =>
        pose proof (randint_range low high g3 ltac:(lia)) as Hbitrate;
        destruct (randint low high g3) as [bitrate g4]
    end;
    pose proof (and_draw_requested (V1.want_video_compression args)
                  (F64.lit 5 10) r4) as Hvideo;
    destruct (and_draw (V1.want_video_compression args) _ r4) as [video r5];
    pose proof (and_draw_requested (V1.want_blur args) (F64.lit 5 10) r5)
      as Hblur;
    destruct (and_draw (V1.want_blur args) _ r5) as [blur r6];
    destruct (random_mixed_kernels _ w) as [kernel w'];
    cbn [fst snd] in *;
    eexists; (split; [ reflexivity | ]); cbn;
    (split; [ | repeat split; assumption ]).
  - left. split; [reflexivity | lia].
  - right; left. split; [reflexivity | lia].
  - right; right; left. split; [reflexivity | lia].
  - right; right; right. split; [reflexivity | lia].
Qed.

(** X5: whatever the toggles and the draws, the v1 constructor returns an
    object whose codec is one of libx264, libx265, libvpx-vp9 and mpeg4 and
    whose bit rate lies in the range of that codec, both ends included
    (15000..100000 for libx264 and mpeg4, 10000..60000 for libx265 and
    libvpx-vp9); the bit rate is therefore never zero and always reaches
    the encoder. *)
Theorem init_v1_bitrate_in_codec_range
    (args : V1.toggles) (repeatable_random : bool) (w : World) :
  ∃ p w',
    V1.__init__ args repeatable_random w = inr (p, w') ∧
    ((V1.video_codec p = "libx264" ∧ 15000 ≤ V1.video_bitrate p ≤ 100000) ∨
     (V1.video_codec p = "libx265" ∧ 10000 ≤ V1.video_bitrate p ≤ 60000) ∨
     (V1.video_codec p = "libvpx-vp9" ∧ 10000 ≤ V1.video_bitrate p ≤ 60000) ∨
     (V1.video_codec p = "mpeg4" ∧ 15000 ≤ V1.video_bitrate p ≤ 100000)) ∧
    truthy (Some (V1.video_bitrate p)) = true.
Proof.
  destruct (init_v1_sampled args repeatable_random w) as (p & Hinit & Hrange & _).
  exists p. eexists. split; [exact Hinit|]. split; [exact Hrange|].
  unfold truthy. apply negb_true_iff, Z.eqb_neq.
  destruct Hrange as [[_ ?] | [[_ ?] | [[_ ?] | [_ ?]]]]; lia.
Qed.

(** X6: the toggles of the v1 constructor have no influence on the values
    it draws from [rng_numpy] before the codec is chosen: two constructions
    that start from the same generators with different toggles both
    return, and agree on [scale], [sigma], [jpeg_quality] and
    [repeatable_noise]. *)
Theorem init_v1_values_independent_of_toggles
    (args args' : V1.toggles) (repeatable_random : bool) (w : World) :
  ∃ p p' w1 w2,
    V1.__init__ args repeatable_random w = inr (p, w1) ∧
    V1.__init__ args' repeatable_random w = inr (p', w2) ∧
    V1.scale p = V1.scale p' ∧
    V1.sigma p = V1.sigma p' ∧
    V1.jpeg_quality p = V1.jpeg_quality p' ∧
    V1.repeatable_noise p = V1.repeatable_noise p'.
Proof.
  destruct (init_v1_sampled args repeatable_random w)
    as (p & Hinit & _ & _ & _ & _ & _ & _ & Hs & Hg & Hq & _ & Hr).
  destruct (init_v1_sampled args' repeatable_random w)
    as (p' & Hinit' & _ & _ & _ & _ & _ & _ & Hs' & Hg' & Hq' & _ & Hr').
  exists p, p'. do 2 eexists. split; [exact Hinit|]. split; [exact Hinit'|].
  repeat split; congruence.
Qed.

(** X7: a v1 object constructed with every toggle off degrades nothing:
    all its flags are off, whatever the generators draw, and
    [apply_video_degradation] returns the 8-bit frames it is given, bit
    for bit. *)
Theorem init_v1_all_toggles_off
    (repeatable_random : bool) (w : World) (imgs : list Image) (world : World) :
  Forall is_uint8_image imgs →
  ∃ p w',
    V1.__init__
      {| V1.want_down_sample := false; V1.want_noise := false;
         V1.want_image_compression := false;
         V1.want_video_compression := false; V1.want_blur := false |}
      repeatable_random w = inr (p, w') ∧
    apply_video_degradation imgs p world = inr (imgs, world).
Proof.
  intros Himgs.
  destruct (init_v1_sampled
              {| V1.want_down_sample := false; V1.want_noise := false;
                 V1.want_image_compression := false;
                 V1.want_video_compression := false; V1.want_blur := false |}
              repeatable_random w)
    as (p & Hinit & _ & Hdown & Hnoise & Hjpeg & Hvideo & Hblur & _).
  cbn in Hdown, Hnoise, Hjpeg, Hvideo, Hblur.
  exists p. eexists. split; [exact Hinit|].
  assert (Hoff : ∀ b : bool, (b = true → false = true) → b = false).
  { intros [|] Hb; [symmetry; by apply Hb | reflexivity]. }
  apply Hoff in Hdown, Hnoise, Hjpeg, Hvideo, Hblur.
  unfold apply_video_degradation, mbind, call_bind, bind.
  rewrite for_each_identity.
  - rewrite Hvideo. reflexivity.
  - eapply Forall_impl; [exact Himgs|].
    intros img Himg world0. cbn beta.
    by apply apply_frame_degradation_identity.
Qed.
End MoreSamplerV1Properties.

(** ** The further properties at the stand-in collaborators *)

Lemma pipelines_on_empty_list_witness :
  apply_video_degradation_v2 [] Fake.params_v2 0 = inl IndexError ∧
  _apply_video_compression [] "libx264" None None = inl IndexError ∧
  apply_video_degradation [] Fake.params_v1 0 = inr ([], 0).
Proof.
  pose proof (@pipelines_on_empty_list Fake.externals
                Fake.params_v1 Fake.params_v2 0) as (Hv2 & Hcodec & Hv1).
  split; [exact Hv2|]. split.
  - apply Hcodec. reflexivity.
  - apply Hv1. reflexivity.
Defined.

Lemma apply_video_degradation_frame_flags_off_witness :
  apply_video_degradation [[[[0; 128; 255]]]; [[[7; 8; 9]]]] Fake.params_v1 0
  = inr ([[[[0; 128; 255]]]; [[[7; 8; 9]]]], 0).
Proof.
  apply (@apply_video_degradation_frame_flags_off Fake.externals
           [[[[0; 128; 255]]]; [[[7; 8; 9]]]] Fake.params_v1 0);
    try reflexivity.
  repeat constructor; unfold is_uint8; lia.
Defined.

Lemma apply_video_degradation_v2_flags_off_witness :
  apply_video_degradation_v2 [Fake.grey_frame] Fake.params_v2 0
  = lift (apply_video_compression [Fake.grey_frame] "libx264" None None) 0.
Proof.
  apply (@apply_video_degradation_v2_flags_off Fake.externals
           Fake.grey_frame [] Fake.params_v2 0); reflexivity.
Defined.

Lemma encoder_error_is_raised_witness :
  apply_video_compression (H := Fake.rejecting)
    [Fake.grey_frame] "libx264" None (Some 23)
  = inl (AvError "encoder not found") ∧
  apply_video_degradation_v2 (H := Fake.rejecting)
    [Fake.grey_frame] Fake.rejecting_params_v2 0
  = inl (AvError "encoder not found").
Proof.
  pose proof (@encoder_error_is_raised Fake.rejecting Fake.grey_frame []
                "libx264" None (Some 23) Fake.rejecting_params_v2 0
                (AvError "encoder not found")) as (Hcompression & Hv2).
  split.
  - apply Hcompression. reflexivity.
  - apply Hv2; reflexivity.
Defined.


Lemma apply_video_compression_crop_removes_nothing_witness :
  apply_video_compression [Fake.frame 5 3] "libx264" (Some 20000) None
  = _apply_video_compression
      (pad_to_compatible_size_for_video_codecs [Fake.frame 5 3])
      "libx264" (Some 20000) None.
Proof.
  apply (@apply_video_compression_crop_removes_nothing Fake.externals
           fake_size_preserving [Fake.frame 5 3] "libx264" (Some 20000) None 5 3).
  - discriminate.
  - constructor; [apply has_size_filled | constructor].
  - lia.
Defined.

Lemma apply_frame_degradation_keeps_size_witness :
  ∃ out world',
    apply_frame_degradation (Fake.frame 5 3) Fake.params_v1_down 0
    = inr (out, world') ∧ has_size 5 3 out.
Proof.
  apply (@apply_frame_degradation_keeps_size Fake.externals fake_size_preserving).
  - apply has_size_filled.
  - lia.
  - lia.
  - intros _. split; reflexivity.
Defined.

Lemma apply_frame_degradation_v2_keeps_size_witness :
  ∃ out world',
    apply_frame_degradation_v2 (Fake.frame 5 3) Fake.params_v2 0
    = inr (out, world') ∧ has_size 5 3 out.
Proof.
  apply (@apply_frame_degradation_v2_keeps_size Fake.externals
           fake_size_preserving).
  - apply has_size_filled.
  - lia.
Defined.

Lemma down_sample_error_is_raised_witness :
  apply_frame_degradation [[]] Fake.params_v1_down 0
  = inl (Cv2Error "dsize") ∧
  apply_video_degradation [[[]]; Fake.frame 5 3] Fake.params_v1_down 0
  = inl (Cv2Error "dsize").
Proof.
  apply (@down_sample_error_is_raised Fake.externals
           [[]] [Fake.frame 5 3] Fake.params_v1_down 0 (Cv2Error "dsize")).
  - reflexivity.
  - intros blurred. reflexivity.
Defined.

Lemma init_v1_bitrate_in_codec_range_witness :
  ∃ p w',
    V1.__init__ V1.default_toggles true 0 = inr (p, w') ∧
    truthy (Some (V1.video_bitrate p)) = true.
Proof.
  destruct (@init_v1_bitrate_in_codec_range Fake.externals fake_lawful
              V1.default_toggles true 0) as (p & w' & Hinit & _ & Hset).
  exists p, w'. split; [exact Hinit | exact Hset].
Defined.

Lemma init_v1_values_independent_of_toggles_witness :
  ∃ p p' w1 w2,
    V1.__init__ V1.default_toggles true 0 = inr (p, w1) ∧
    V1.__init__
      {| V1.want_down_sample := false; V1.want_noise := false;
         V1.want_image_compression := false;
         V1.want_video_compression := true; V1.want_blur := true |}
      true 0 = inr (p', w2) ∧
    V1.scale p = V1.scale p'.
Proof.
  destruct (@init_v1_values_independent_of_toggles Fake.externals fake_lawful
              V1.default_toggles
              {| V1.want_down_sample := false; V1.want_noise := false;
                 V1.want_image_compression := false;
                 V1.want_video_compression := true; V1.want_blur := true |}
              true 0) as (p & p' & w1 & w2 & Hinit & Hinit' & Hscale & _).
  exists p, p', w1, w2. split; [exact Hinit|]. split; [exact Hinit' | exact Hscale].
Defined.

Lemma init_v1_all_toggles_off_witness :
  ∃ p w',
    V1.__init__
      {| V1.want_down_sample := false; V1.want_noise := false;
         V1.want_image_compression := false;
         V1.want_video_compression := false; V1.want_blur := false |}
      true 0 = inr (p, w') ∧
    apply_video_degradation [[[[0; 128; 255]]]] p 0 = inr ([[[[0; 128; 255]]]], 0).
Proof.
  apply (@init_v1_all_toggles_off Fake.externals fake_lawful true 0
           [[[[0; 128; 255]]]] 0).
  repeat constructor; unfold is_uint8; lia.
Defined.

(** ** What the v2 pipeline reads of its parameters *)

Section V2Reads.
Context `{Externals}.

(** X4: [apply_video_degradation_v2] reads the codec, the bit rate, the
    blur flag and sigma and the noise flag of its parameter object and
    nothing else: two objects that agree on these give the same result, so
    [should_add_video_compression] off does not switch the compression off,
    and [should_run_video_compression_second_pass] and [video_crf] change
    nothing. *)
Theorem apply_video_degradation_v2_reads
    (imgs : list Image) (p p' : V2.t) (world : World) :
  V2.video_codec p = V2.video_codec p' →
  V2.video_bitrate p = V2.video_bitrate p' →
  V2.should_add_blur p = V2.should_add_blur p' →
  V2.blur_sigma p = V2.blur_sigma p' →
  V2.should_add_noise p = V2.should_add_noise p' →
  apply_video_degradation_v2 imgs p world
  = apply_video_degradation_v2 imgs p' world.
Proof.
  intros Hcodec Hbitrate Hblur Hsigma Hnoise.
  unfold apply_video_degradation_v2, mbind, call_bind, bind.
  destruct (first imgs world) as [e|[img0 world0]]; [reflexivity|].
  destruct (Nat.eqb _ 256); [|reflexivity].
  rewrite Hcodec, Hbitrate.
  destruct (lift _ world0) as [e|[imgs_lq world1]]; [reflexivity|].
  apply for_each_ext. intros img world2.
  unfold apply_frame_degradation_v2. rewrite Hblur, Hsigma, Hnoise. reflexivity.
Qed.
End V2Reads.

Lemma apply_video_degradation_v2_reads_witness :
  apply_video_degradation_v2 [Fake.grey_frame] Fake.params_v2 0
  = apply_video_degradation_v2 [Fake.grey_frame]
      (@V2.Build_t Fake.externals 7 "libx264" None None false 2 false false true) 0.
Proof.
  apply (@apply_video_degradation_v2_reads Fake.externals); reflexivity.
Defined.
